(** * EpicServer: access control and metadata model of [server.py]

    A shallow embedding of the Flask handlers of [src/server.py].  The two
    module-level dictionaries [users] and [files] become finite maps, the
    upload folder and [users.json] become two further components of the
    state, and every handler becomes a function from the request fields and
    the state to the pair of the response (body and HTTP status) and the new
    state. *)

From Stdlib Require Import ZArith NArith String Ascii List.
From stdpp Require Import base decidable option list strings gmap fin_maps.

Local Open Scope string_scope.
Local Open Scope Z_scope.

(** ** Library collaborators *)

(** *** [werkzeug.utils.secure_filename]

    The sanitizer of uploaded file names, with its helpers, on a POSIX
    host. *)
Module Werkzeug.

Definition code (c : ascii) : N := N_of_ascii c.

Definition is_ascii (c : ascii) : bool := (code c <? 128)%N.

(** White space as [str.split()] understands it, within ASCII. *)
Definition is_space (c : ascii) : bool :=
  ((9 <=? code c) && (code c <=? 13) || (28 <=? code c) && (code c <=? 32))%N.

(** The complement of [_filename_ascii_strip_re = [^A-Za-z0-9_.-]]. *)
Definition is_safe (c : ascii) : bool :=
  ((65 <=? code c) && (code c <=? 90)
   || (97 <=? code c) && (code c <=? 122)
   || (48 <=? code c) && (code c <=? 57)
   || (code c =? 95) || (code c =? 46) || (code c =? 45))%N.

(** The characters of [.strip("._")]. *)
Definition is_dot_or_underscore (c : ascii) : bool :=
  ((code c =? 46) || (code c =? 95))%N.

(** [filename.replace(os.sep, " ")] with [os.sep = "/"]. *)
Definition replace_sep (c : ascii) : ascii :=
  if (code c =? 47)%N then " "%char else c.

(** [filename.split()]: maximal runs of non-blank characters; [cur] holds
    the current run, last character first. *)
Fixpoint split_from (cur : list ascii) (l : list ascii) : list (list ascii) :=
  match l with
  | [] => match cur with [] => [] | _ => [rev cur] end
  | c :: l' =>
      if is_space c
      then match cur with
           | [] => split_from [] l'
           | _ => rev cur :: split_from [] l'
           end
      else split_from (c :: cur) l'
  end.

Definition split (l : list ascii) : list (list ascii) := split_from [] l.

(** ["_".join(parts)] *)
Fixpoint join (parts : list (list ascii)) : list ascii :=
  match parts with
  | [] => []
  | [p] => p
  | p :: ps => p ++ "_"%char :: join ps
  end.

Fixpoint lstrip (l : list ascii) : list ascii :=
  match l with
  | c :: l' => if is_dot_or_underscore c then lstrip l' else l
  | [] => []
  end.

Definition strip (l : list ascii) : list ascii := rev (lstrip (rev (lstrip l))).

(** Modelled from the spec: [secure_filename] belongs to werkzeug and is not
    under [src/]; the spec describes it as the step that strips directory
    separators and traversal sequences and collapses the name to a
    filesystem-safe token.  The definition follows the library routine step
    by step: characters outside ASCII are dropped, the path separator
    becomes a blank, the name is split on white space and joined with
    underscores, every character outside [A-Za-z0-9_.-] is removed and
    leading and trailing dots and underscores are stripped.  The
    compatibility decomposition that the library applies to non-ASCII
    letters before dropping them is not modelled, so the definition is exact
    on ASCII names. *)
Definition secure_filename (filename : string) : string :=
  let filename := List.filter is_ascii (list_ascii_of_string filename) in
  let filename := List.map replace_sep filename in
  string_of_list_ascii (strip (List.filter is_safe (join (split filename)))).

End Werkzeug.

Import Werkzeug.

(** *** [bcrypt]

    The password hash is an external routine; the handlers only need its two
    entry points.  [gensalt] is random, so the salt is an input of
    [register]. *)
Class Bcrypt := {
  hashpw : string → string → string;   (* password, salt *)
  checkpw : string → string → bool     (* password, stored hash *)
}.

(** ** Data model *)

(** A value of [users]: [{'password': ..., 'files': []}]. *)
Record user := User {
  user_password : string;
  user_files : list string
}.

(** A value of [files]: [{'owner': ..., 'shared_with': [...]}]. *)
Record file_data := FileData {
  owner : string;
  shared_with : list string
}.

(** The process state: the two dictionaries, the copy of [users] that
    [save_users] keeps in [users.json], and the entries of the upload
    folder (name to content). *)
Record state := State {
  users : gmap string user;
  files : gmap string file_data;
  users_json : gmap string user;
  uploads : gmap string string
}.

Definition empty_state : state := State ∅ ∅ ∅ ∅.

(** ** Responses *)

Inductive body :=
| Message (m : string)                    (* jsonify({'message': m}) *)
| Error (e : string)                      (* jsonify({'error': e}) *)
| AccessToken (identity : string)         (* create_access_token(identity) *)
| FileLists (owned_files shared_files : list string)
| Attachment (name content : string)      (* send_file(..., as_attachment) *)
| Unhandled (exception : string).         (* uncaught exception *)

Definition response : Type := body * Z.

Definition status (r : response) : Z := r.2.

(** The error kinds of the interface table, read off a response: status 400
    is [DuplicateUser] for the message of [register]'s second guard and
    [InvalidInput] otherwise. *)
Inductive error_kind :=
| InvalidInput | DuplicateUser | AuthenticationFailed
| NotFound | AccessDenied | InternalFailure.

Definition kind_of (r : response) : option error_kind :=
  match r with
  | (Error e, 400) =>
      if decide (e = "Username already exists") then Some DuplicateUser
      else Some InvalidInput
  | (_, 401) => Some AuthenticationFailed
  | (_, 403) => Some AccessDenied
  | (_, 404) => Some NotFound
  | (_, 500) => Some InternalFailure
  | _ => None
  end.

(** ** The handlers

    A JSON field read with [data.get] is an [option string]: [None] when
    the key is absent or null; fields that are not strings are outside the
    model.  The protected handlers are modelled after
    [@jwt_required()] has accepted the token: their first argument is the
    result of [get_jwt_identity()].  Token expiry is outside the model. *)

(** [list.remove(x)]: the first occurrence goes. *)
Fixpoint remove_first (x : string) (l : list string) : list string :=
  match l with
  | [] => []
  | y :: l' => if decide (x = y) then l' else y :: remove_first x l'
  end.

(** Modelled from the spec: [file.save] is werkzeug's and writes to the file
    system, neither of which is under [src/]; the spec has the content
    stored under the sanitized key, replacing any content already there, and
    storage failures surface as an internal failure.  The path is
    [os.path.join(UPLOAD_FOLDER, filename)]: with an empty [filename] it is
    the upload folder itself, and opening a directory for writing raises;
    any other name is written.  Failures of the environment (full disk,
    permissions, over-long names) are outside the model. *)
Definition file_save (filename content : string) (folder : gmap string string)
  : option (gmap string string) :=
  if decide (filename = "") then None
  else Some (<[filename := content]> folder).

(** [os.path.exists(p)] followed by [os.remove(p)] when it holds. *)
Definition file_remove (filename : string) (folder : gmap string string)
  : gmap string string :=
  delete filename folder.

Definition set_users (us : gmap string user) (st : state) : state :=
  State us (files st) (users_json st) (uploads st).

Definition set_files (fs : gmap string file_data) (st : state) : state :=
  State (users st) fs (users_json st) (uploads st).

Definition set_uploads (up : gmap string string) (st : state) : state :=
  State (users st) (files st) (users_json st) up.

(** [json.dump(users, f)] on [users.json]. *)
Definition save_users (st : state) : state :=
  State (users st) (files st) (users st) (uploads st).

Section Handlers.
Context `{!Bcrypt}.

Definition register (username password : option string) (salt : string)
    (st : state) : response * state :=
  match username, password with
  | Some username, Some password =>
      if decide (username = "" ∨ password = "") then
        ((Error "Missing username or password", 400), st)
      else if decide (is_Some (users st !! username)) then
        ((Error "Username already exists", 400), st)
      else
        let hashed := hashpw password salt in
        let st := set_users (<[username := User hashed []]> (users st)) st in
        let st := save_users st in
        ((Message "User registered successfully", 201), st)
  | _, _ => ((Error "Missing username or password", 400), st)
  end.

Definition login (username password : option string) (st : state)
    : response * state :=
  match username, password with
  | Some username, Some password =>
      if decide (username = "" ∨ password = "") then
        ((Error "Missing username or password", 400), st)
      else
        match users st !! username with
        | Some user =>
            if checkpw password (user_password user) then
              ((AccessToken username, 200), st)
            else ((Error "Invalid username or password", 401), st)
        | None => ((Error "Invalid username or password", 401), st)
        end
  | _, _ => ((Error "Missing username or password", 400), st)
  end.

(** The comprehensions run over [files.items()]; the model enumerates the
    map in the order of [map_to_list], not in insertion order. *)
Definition owned_files (username : string) (st : state) : list string :=
  (filter (λ p, owner p.2 = username) (map_to_list (files st))).*1.

Definition shared_files (username : string) (st : state) : list string :=
  (filter (λ p, username ∈ shared_with p.2) (map_to_list (files st))).*1.

Definition get_files (username : string) (st : state) : response * state :=
  ((FileLists (owned_files username st) (shared_files username st), 200), st).

(** [file] is [request.files.get('file')]: raw file name and content. *)
Definition upload_file (username : string) (file : option (string * string))
    (st : state) : response * state :=
  match file with
  | None => ((Error "No file provided", 400), st)
  | Some (raw, content) =>
      if decide (raw = "") then ((Error "No file selected", 400), st)
      else
        let filename := secure_filename raw in
        match file_save filename content (uploads st) with
        | None => ((Unhandled "IsADirectoryError", 500), st)
        | Some folder =>
            let st := set_uploads folder st in
            let st := set_files (<[filename := FileData username []]> (files st)) st in
            ((Message "File uploaded successfully", 201), st)
        end
  end.

(** [send_file(file_path, as_attachment=True)] *)
Definition send_file (filename : string) (st : state) : response :=
  match uploads st !! filename with
  | Some content => (Attachment filename content, 200)
  | None => (Unhandled "FileNotFoundError", 500)
  end.

Definition download_file (username filename : string) (st : state)
    : response * state :=
  match files st !! filename with
  | None => ((Error "File not found", 404), st)
  | Some file_data =>
      if decide (owner file_data ≠ username ∧ username ∉ shared_with file_data)
      then ((Error "Access denied", 403), st)
      else (send_file filename st, st)
  end.

Definition share_file (username : string) (filename target_user : option string)
    (st : state) : response * state :=
  match filename, target_user with
  | Some filename, Some target_user =>
      if decide (filename = "" ∨ target_user = "") then
        ((Error "Missing filename or target username", 400), st)
      else
        match files st !! filename with
        | None => ((Error "File not found", 404), st)
        | Some file_data =>
            if decide (owner file_data ≠ username) then
              ((Error "You can only share files you own", 403), st)
            else if decide (users st !! target_user = None) then
              ((Error "Target user does not exist", 404), st)
            else if decide (target_user ∉ shared_with file_data) then
              let file_data :=
                FileData (owner file_data) (shared_with file_data ++ [target_user]) in
              ((Message "File shared successfully", 200),
               set_files (<[filename := file_data]> (files st)) st)
            else ((Message "File shared successfully", 200), st)
        end
  | _, _ => ((Error "Missing filename or target username", 400), st)
  end.

Definition revoke_access (username : string) (filename target_user : option string)
    (st : state) : response * state :=
  match filename, target_user with
  | Some filename, Some target_user =>
      if decide (filename = "" ∨ target_user = "") then
        ((Error "Missing filename or target username", 400), st)
      else
        match files st !! filename with
        | None => ((Error "File not found", 404), st)
        | Some file_data =>
            if decide (owner file_data ≠ username) then
              ((Error "You can only revoke access to files you own", 403), st)
            else if decide (target_user ∈ shared_with file_data) then
              let file_data :=
                FileData (owner file_data) (remove_first target_user (shared_with file_data)) in
              ((Message "Access revoked successfully", 200),
               set_files (<[filename := file_data]> (files st)) st)
            else ((Message "Access revoked successfully", 200), st)
        end
  | _, _ => ((Error "Missing filename or target username", 400), st)
  end.

Definition delete_file (username filename : string) (st : state)
    : response * state :=
  match files st !! filename with
  | None => ((Error "File not found", 404), st)
  | Some file_data =>
      if decide (owner file_data ≠ username) then
        ((Error "You can only delete files you own", 403), st)
      else
        let st := set_uploads (file_remove filename (uploads st)) st in
        let st := set_files (delete filename (files st)) st in
        ((Message "File deleted successfully", 200), st)
  end.

(** ** Requests and runs *)

Inductive request :=
| Register (username password : option string) (salt : string)
| Login (username password : option string)
| List_ (caller : string)
| Upload (caller : string) (file : option (string * string))
| Download (caller name : string)
| Share (caller : string) (name target_user : option string)
| Revoke (caller : string) (name target_user : option string)
| Delete (caller name : string).

Definition handle (r : request) (st : state) : response * state :=
  match r with
  | Register u p salt => register u p salt st
  | Login u p => login u p st
  | List_ c => get_files c st
  | Upload c f => upload_file c f st
  | Download c n => download_file c n st
  | Share c n t => share_file c n t st
  | Revoke c n t => revoke_access c n t st
  | Delete c n => delete_file c n st
  end.

(** The state after serving the requests in order. *)
Definition run (rs : list request) (st : state) : state :=
  foldl (λ st r, (handle r st).2) st rs.

(** A fresh process: [files] is empty and [load_users] has read [users]
    from [users.json]; the upload folder holds whatever an earlier process
    left there.  [empty_state] is the start with nothing on disk. *)
Definition start (disk_users : gmap string user) (folder : gmap string string)
    : state :=
  State disk_users ∅ disk_users folder.

(** The states the server can be in: a start state, or the state after
    serving one more request. *)
Inductive reachable : state → Prop :=
| reachable_start disk_users folder : reachable (start disk_users folder)
| reachable_handle r st : reachable st → reachable (handle r st).2.

End Handlers.

(** An instance to execute concrete runs: the stored hash is the password
    itself.  No statement below depends on it beyond the fact that
    [register] stores some string. *)
Definition clear_text : Bcrypt :=
  {| hashpw p _ := p; checkpw p h := bool_decide (p = h) |}.

(** ** Example states *)

Module Scenario.
#[local] Existing Instance clear_text.

Definition alice_bob_carol : list request :=
  [ Register (Some "alice") (Some "pw-a") "s1";
    Register (Some "bob") (Some "pw-b") "s2";
    Register (Some "carol") (Some "pw-c") "s3";
    Login (Some "alice") (Some "pw-a") ].

(** Alice, Bob and Carol are registered; no file has been uploaded. *)
Definition registered : state := run alice_bob_carol empty_state.

(** Alice owns [a.txt]; nobody shares it. *)
Definition upload_requests : list request :=
  alice_bob_carol ++ [Upload "alice" (Some ("a.txt", "data"))].

Definition uploaded : state := run upload_requests empty_state.

(** Alice owns [a.txt] and has shared it with Bob. *)
Definition share_with_bob_requests : list request :=
  upload_requests ++ [Share "alice" (Some "a.txt") (Some "bob")].

Definition shared_with_bob : state := run share_with_bob_requests empty_state.

(** Alice owns [a.txt] and has shared it with herself. *)
Definition share_with_self_requests : list request :=
  upload_requests ++ [Share "alice" (Some "a.txt") (Some "alice")].

Definition shared_with_self : state := run share_with_self_requests empty_state.
End Scenario.

(** ** Properties of states and requests *)

(** No record lists its own owner among the users it is shared with. *)
Definition owner_not_shared (st : state) : Prop :=
  ∀ name data, files st !! name = Some data → owner data ∉ shared_with data.

(** Every user a record is shared with is a key of [users]. *)
Definition shares_registered (st : state) : Prop :=
  ∀ name data target,
    files st !! name = Some data → target ∈ shared_with data →
    is_Some (users st !! target).

(** No share list mentions a user twice. *)
Definition shares_nodup (st : state) : Prop :=
  ∀ name data, files st !! name = Some data → NoDup (shared_with data).

(** A share request whose target is the caller. *)
Definition self_share (r : request) : Prop :=
  match r with
  | Share caller _ (Some target_user) => caller = target_user
  | _ => False
  end.

#[global] Instance self_share_dec r : Decision (self_share r).
Proof. destruct r as [| | | | |c n [t|]| |]; simpl; apply _. Defined.

(** ** Start-up and further properties of states *)

(** [load_users]: the content of [users.json], or the empty dictionary when
    the file does not exist ([None]). *)
Definition load_users (json : option (gmap string user)) : gmap string user :=
  match json with
  | Some us => us
  | None => ∅
  end.

(** The module start-up (lines 23, 24 and 40) of a process that follows one
    stopped in [st]: [files] is empty again, [users] is read back from
    [users.json], the upload folder is as it was left. *)
Definition restart (st : state) : state :=
  start (load_users (Some (users_json st))) (uploads st).

(** The identity a request runs under; [register] and [login] are open. *)
Definition caller_of (r : request) : option string :=
  match r with
  | Register _ _ _ | Login _ _ => None
  | List_ c | Upload c _ | Download c _ | Share c _ _ | Revoke c _ _
  | Delete c _ => Some c
  end.

Definition is_upload (r : request) : Prop :=
  match r with
  | Upload _ _ => True
  | _ => False
  end.

(** [users.json] holds what [users] holds. *)
Definition users_saved (st : state) : Prop := users_json st = users st.

(** Every record has its content in the upload folder. *)
Definition content_stored (st : state) : Prop :=
  ∀ name data, files st !! name = Some data → is_Some (uploads st !! name).

(** A storage key: not empty, made of [A-Za-z0-9_.-] only. *)
Definition safe_name (name : string) : Prop :=
  name ≠ "" ∧ Forall (λ c, is_safe c = true) (list_ascii_of_string name).

Definition names_safe (st : state) : Prop :=
  ∀ name data, files st !! name = Some data → safe_name name.

(** ** Auxiliary facts *)

Example secure_filename_plain : secure_filename "a.txt" = "a.txt".
Proof. reflexivity. Qed.

Example secure_filename_traversal :
  secure_filename "../../etc/my passwd" = "etc_my_passwd".
Proof. reflexivity. Qed.

Example secure_filename_dots : secure_filename ".." = "".
Proof. reflexivity. Qed.


Section Facts.
Context `{!Bcrypt}.

Lemma run_nil st : run [] st = st.
Proof. reflexivity. Qed.

Lemma run_cons r rs st : run (r :: rs) st = run rs (handle r st).2.
Proof. reflexivity. Qed.

Lemma run_app rs1 rs2 st : run (rs1 ++ rs2) st = run rs2 (run rs1 st).
Proof. apply foldl_app. Qed.

Lemma reachable_run rs st : reachable st → reachable (run rs st).
Proof.
  revert st. induction rs as [|r rs IH]; intros st Hst; [done|].
  rewrite run_cons. apply IH. by constructor.
Qed.

Lemma reachable_empty : reachable empty_state.
Proof. apply (reachable_start ∅ ∅). Qed.

(** Every handler that answers 200 or 201 is the only one to touch the
    state: a response with status 400 or more leaves it as it was. *)
Lemma register_error u p salt st :
  400 ≤ status (register u p salt st).1 → (register u p salt st).2 = st.
Proof.
  unfold register. repeat (case_decide || case_match); simpl; (done || lia).
Qed.

Lemma login_unchanged u p st : (login u p st).2 = st.
Proof. unfold login. by repeat (case_decide || case_match). Qed.

Lemma upload_file_error c f st :
  400 ≤ status (upload_file c f st).1 → (upload_file c f st).2 = st.
Proof.
  unfold upload_file. repeat (case_decide || case_match); simpl; (done || lia).
Qed.

Lemma download_file_unchanged c n st : (download_file c n st).2 = st.
Proof. unfold download_file. by repeat (case_decide || case_match). Qed.

Lemma share_file_error c n t st :
  400 ≤ status (share_file c n t st).1 → (share_file c n t st).2 = st.
Proof.
  unfold share_file. repeat (case_decide || case_match); simpl; (done || lia).
Qed.

Lemma revoke_access_error c n t st :
  400 ≤ status (revoke_access c n t st).1 → (revoke_access c n t st).2 = st.
Proof.
  unfold revoke_access. repeat (case_decide || case_match); simpl; (done || lia).
Qed.

Lemma delete_file_error c n st :
  400 ≤ status (delete_file c n st).1 → (delete_file c n st).2 = st.
Proof.
  unfold delete_file. repeat (case_decide || case_match); simpl; (done || lia).
Qed.

Lemma handle_error r st :
  400 ≤ status (handle r st).1 → (handle r st).2 = st.
Proof.
  destruct r; simpl.
  - apply register_error.
  - intros _. apply login_unchanged.
  - done.
  - apply upload_file_error.
  - intros _. apply download_file_unchanged.
  - apply share_file_error.
  - apply revoke_access_error.
  - apply delete_file_error.
Qed.

Lemma kind_of_status r k : kind_of r = Some k → 400 ≤ status r.
Proof.
  destruct r as [b s]. unfold kind_of, status. simpl.
  repeat case_match; intros; simplify_eq; lia.
Qed.

End Facts.

(** ** Order of the guards in [share_file] and [revoke_access] *)

Section Guards.
Context `{!Bcrypt}.

Lemma share_file_missing_field c n t st :
  n = None ∨ n = Some "" ∨ t = None ∨ t = Some "" →
  share_file c n t st = ((Error "Missing filename or target username", 400), st).
Proof.
  unfold share_file. intros Hf.
  destruct n as [n|], t as [t|]; try done.
  case_decide as Hempty; [done|].
  destruct Hf as [?|[?|[?|?]]]; simplify_eq; tauto.
Qed.

Lemma revoke_access_missing_field c n t st :
  n = None ∨ n = Some "" ∨ t = None ∨ t = Some "" →
  revoke_access c n t st =
    ((Error "Missing filename or target username", 400), st).
Proof.
  unfold revoke_access. intros Hf.
  destruct n as [n|], t as [t|]; try done.
  case_decide as Hempty; [done|].
  destruct Hf as [?|[?|[?|?]]]; simplify_eq; tauto.
Qed.

Lemma share_file_not_found c n t st :
  n ≠ "" → t ≠ "" → files st !! n = None →
  share_file c (Some n) (Some t) st = ((Error "File not found", 404), st).
Proof.
  intros Hn Ht Hfile. unfold share_file. rewrite Hfile.
  case_decide; [tauto | done].
Qed.

Lemma revoke_access_not_found c n t st :
  n ≠ "" → t ≠ "" → files st !! n = None →
  revoke_access c (Some n) (Some t) st = ((Error "File not found", 404), st).
Proof.
  intros Hn Ht Hfile. unfold revoke_access. rewrite Hfile.
  case_decide; [tauto | done].
Qed.

Lemma share_file_not_owner c n t st data :
  n ≠ "" → t ≠ "" → files st !! n = Some data → owner data ≠ c →
  share_file c (Some n) (Some t) st =
    ((Error "You can only share files you own", 403), st).
Proof.
  intros Hn Ht Hfile Hown. unfold share_file. rewrite Hfile.
  repeat case_decide; tauto || done.
Qed.

Lemma revoke_access_not_owner c n t st data :
  n ≠ "" → t ≠ "" → files st !! n = Some data → owner data ≠ c →
  revoke_access c (Some n) (Some t) st =
    ((Error "You can only revoke access to files you own", 403), st).
Proof.
  intros Hn Ht Hfile Hown. unfold revoke_access. rewrite Hfile.
  repeat case_decide; tauto || done.
Qed.

(** Status 403 is only ever answered for a file that has a record. *)
Lemma share_file_denied_exists c n t st :
  status (share_file c n t st).1 = 403 →
  ∃ name data, n = Some name ∧ files st !! name = Some data ∧ owner data ≠ c.
Proof.
  unfold share_file.
  repeat (case_decide || case_match); simpl; intros; simplify_eq; eauto.
Qed.

Lemma revoke_access_denied_exists c n t st :
  status (revoke_access c n t st).1 = 403 →
  ∃ name data, n = Some name ∧ files st !! name = Some data ∧ owner data ≠ c.
Proof.
  unfold revoke_access.
  repeat (case_decide || case_match); simpl; intros; simplify_eq; eauto.
Qed.

Lemma download_file_not_found c n st :
  files st !! n = None →
  download_file c n st = ((Error "File not found", 404), st).
Proof. intros Hfile. unfold download_file. by rewrite Hfile. Qed.

Lemma delete_file_not_found c n st :
  files st !! n = None →
  delete_file c n st = ((Error "File not found", 404), st).
Proof. intros Hfile. unfold delete_file. by rewrite Hfile. Qed.

End Guards.

(** ** Invariants of the file registry *)

Section Invariants.
Context `{!Bcrypt}.

Lemma remove_first_elem x t l : x ∈ remove_first t l → x ∈ l.
Proof.
  induction l as [|y l IH]; simpl; [done|].
  case_decide; rewrite !elem_of_cons; intuition.
Qed.

Lemma remove_first_NoDup t l : NoDup l → NoDup (remove_first t l).
Proof.
  induction 1 as [|y l Hy Hl IH]; simpl; [constructor|].
  case_decide; [done|]. constructor; [|done].
  intros Hin. by apply Hy, (remove_first_elem _ t).
Qed.

Lemma remove_first_gone t l : NoDup l → t ∉ remove_first t l.
Proof.
  induction 1 as [|y l Hy Hl IH]; simpl; [by apply not_elem_of_nil|].
  case_decide as Heq; [by subst|].
  rewrite elem_of_cons. intuition.
Qed.

(** The records of the state after one request, in terms of the records
    before it. *)
Lemma handle_files_lookup r st name data :
  files (handle r st).2 !! name = Some data →
  files st !! name = Some data
  ∨ (∃ c f, r = Upload c f ∧ data = (FileData c []))
  ∨ (∃ c n t old, r = Share c n (Some t) ∧ files st !! name = Some old
       ∧ owner old = c ∧ is_Some (users st !! t) ∧ (t ∉ shared_with old)
       ∧ data = FileData (owner old) (shared_with old ++ [t]))
  ∨ (∃ c n t old, r = Revoke c n (Some t) ∧ files st !! name = Some old
       ∧ data = FileData (owner old) (remove_first t (shared_with old))).
Proof.
  destruct r as [u p s|u p|c|c f|c n|c n t|c n t|c n]; simpl.
  - unfold register. repeat (case_decide || case_match); simpl; auto.
  - rewrite login_unchanged. auto.
  - auto.
  - unfold upload_file. repeat (case_decide || case_match); simpl; auto.
    all: rewrite lookup_insert; case_decide; intros; simplify_eq; eauto 10.
  - rewrite download_file_unchanged. auto.
  - unfold share_file. repeat (case_decide || case_match); simpl; auto.
    all: rewrite lookup_insert; case_decide; intros; simplify_eq; auto.
    all: right; right; left; eexists _, _, _, _; split_and!; try done.
    all: by apply not_eq_None_Some.
  - unfold revoke_access. repeat (case_decide || case_match); simpl; auto.
    all: rewrite lookup_insert; case_decide; intros; simplify_eq; auto.
    all: right; right; right; eauto 10.
  - unfold delete_file. repeat (case_decide || case_match); simpl; auto.
    all: rewrite lookup_delete; case_decide; intros; simplify_eq; auto.
Qed.

(** No handler removes a user. *)
Lemma handle_users_mono r st u :
  is_Some (users st !! u) → is_Some (users (handle r st).2 !! u).
Proof.
  destruct r as [un p s|un p|c|c f|c n|c n t|c n t|c n]; simpl.
  - unfold register. repeat (case_decide || case_match); simpl; auto.
    all: rewrite lookup_insert; case_decide; eauto.
  - by rewrite login_unchanged.
  - done.
  - unfold upload_file. repeat (case_decide || case_match); simpl; auto.
  - by rewrite download_file_unchanged.
  - unfold share_file. repeat (case_decide || case_match); simpl; auto.
  - unfold revoke_access. repeat (case_decide || case_match); simpl; auto.
  - unfold delete_file. repeat (case_decide || case_match); simpl; auto.
Qed.

Lemma handle_owner_not_shared r st :
  ¬ self_share r → owner_not_shared st → owner_not_shared (handle r st).2.
Proof.
  intros Hself Hinv name data Hdata.
  apply handle_files_lookup in Hdata
    as [Hold|[(c & f & -> & ->)|[(c & n & t & old & -> & Hold & Hc & _ & _ & ->)
                                |(c & n & t & old & -> & Hold & ->)]]]; simpl.
  - by eapply Hinv.
  - apply not_elem_of_nil.
  - rewrite elem_of_app, list_elem_of_singleton. simpl in Hself.
    intros [Hin|Heq]; [by eapply Hinv|]. apply Hself. congruence.
  - intros Hin%remove_first_elem. by eapply Hinv.
Qed.

Lemma handle_shares_registered r st :
  shares_registered st → shares_registered (handle r st).2.
Proof.
  intros Hinv name data target Hdata Hin. apply handle_users_mono.
  apply handle_files_lookup in Hdata
    as [Hold|[(c & f & -> & ->)|[(c & n & t & old & -> & Hold & _ & Ht & _ & ->)
                                |(c & n & t & old & -> & Hold & ->)]]];
    simpl in Hin.
  - by eapply Hinv.
  - by apply elem_of_nil in Hin.
  - apply elem_of_app in Hin as [Hin|Hin]; [by eapply Hinv|].
    by apply list_elem_of_singleton in Hin as ->.
  - apply remove_first_elem in Hin. by eapply Hinv.
Qed.

Lemma handle_shares_nodup r st :
  shares_nodup st → shares_nodup (handle r st).2.
Proof.
  intros Hinv name data Hdata.
  apply handle_files_lookup in Hdata
    as [Hold|[(c & f & -> & ->)|[(c & n & t & old & -> & Hold & _ & _ & Ht & ->)
                                |(c & n & t & old & -> & Hold & ->)]]]; simpl.
  - by eapply Hinv.
  - constructor.
  - apply NoDup_app. split_and!; [by eapply Hinv| |apply NoDup_singleton].
    intros x Hx ->%list_elem_of_singleton. done.
  - apply remove_first_NoDup. by eapply Hinv.
Qed.

Lemma start_invariants disk_users folder :
  owner_not_shared (start disk_users folder)
  ∧ shares_registered (start disk_users folder)
  ∧ shares_nodup (start disk_users folder).
Proof. split_and!; intros name data; simpl; by rewrite lookup_empty. Qed.

Lemma run_owner_not_shared rs st :
  Forall (λ r, ¬ self_share r) rs →
  owner_not_shared st → owner_not_shared (run rs st).
Proof.
  intros Hrs. revert st. induction Hrs as [|r rs Hr _ IH]; intros st Hst.
  - done.
  - rewrite run_cons. by apply IH, handle_owner_not_shared.
Qed.

Lemma reachable_shares_registered st : reachable st → shares_registered st.
Proof.
  induction 1 as [us up|r st _ IH].
  - apply start_invariants.
  - by apply handle_shares_registered.
Qed.

Lemma reachable_shares_nodup st : reachable st → shares_nodup st.
Proof.
  induction 1 as [us up|r st _ IH].
  - apply start_invariants.
  - by apply handle_shares_nodup.
Qed.

End Invariants.

(** ** The share list and the owner *)

(** C1, as stated, fails: after Alice registers, uploads [a.txt] and shares
    it with herself, the state is reachable and the record of [a.txt] lists
    its owner in [shared_with].  [share_file] compares the target with the
    keys of [users] and with the share list, never with the owner. *)
Lemma owner_shared_with_self :
  reachable (H := clear_text) Scenario.shared_with_self
  ∧ files Scenario.shared_with_self !! "a.txt" = Some (FileData "alice" ["alice"])
  ∧ ¬ owner_not_shared Scenario.shared_with_self.
Proof.
  split_and!.
  - apply reachable_run, reachable_empty.
  - reflexivity.
  - intros Hinv. apply (Hinv "a.txt" (FileData "alice" ["alice"])).
    + reflexivity.
    + simpl. apply list_elem_of_singleton. reflexivity.
Qed.

(** C1, amended: in every state reached from a start state by requests none
    of which is a share whose target is the caller, no record's
    [shared_with] contains the record's owner. *)
Theorem owner_not_shared_without_self_share `{!Bcrypt}
    (rs : list request) (disk_users : gmap string user)
    (folder : gmap string string) (name : string) (data : file_data) :
  Forall (λ r, ¬ self_share r) rs →
  files (run rs (start disk_users folder)) !! name = Some data →
  owner data ∉ shared_with data.
Proof.
  intros Hrs Hdata.
  eapply (run_owner_not_shared rs); [done|apply start_invariants|done].
Qed.

Lemma owner_not_shared_without_self_share_witness :
  Forall (λ r, ¬ self_share r) Scenario.share_with_bob_requests
  ∧ files (run (H := clear_text) Scenario.share_with_bob_requests (start ∅ ∅))
      !! "a.txt" = Some (FileData "alice" ["bob"])
  ∧ owner (FileData "alice" ["bob"]) ∉ shared_with (FileData "alice" ["bob"]).
Proof.
  assert (Hrs : Forall (λ r, ¬ self_share r) Scenario.share_with_bob_requests)
    by compute_done.
  split_and!; [exact Hrs|reflexivity|].
  apply (owner_not_shared_without_self_share (H := clear_text)
           Scenario.share_with_bob_requests ∅ ∅ "a.txt"
           (FileData "alice" ["bob"]) Hrs).
  reflexivity.
Defined.

(** C10: in every reachable state, every user name in the [shared_with] of
    a record is a key of [users]. *)
Theorem shared_with_users_registered `{!Bcrypt}
    (st : state) (name : string) (data : file_data) (target : string) :
  reachable st →
  files st !! name = Some data → target ∈ shared_with data →
  is_Some (users st !! target).
Proof.
  intros Hst. by apply reachable_shares_registered.
Qed.

Lemma shared_with_users_registered_witness :
  reachable (H := clear_text) Scenario.shared_with_bob
  ∧ files Scenario.shared_with_bob !! "a.txt" = Some (FileData "alice" ["bob"])
  ∧ "bob" ∈ shared_with (FileData "alice" ["bob"])
  ∧ is_Some (users Scenario.shared_with_bob !! "bob").
Proof.
  assert (Hst : reachable (H := clear_text) Scenario.shared_with_bob)
    by apply reachable_run, reachable_empty.
  assert (Hin : "bob" ∈ shared_with (FileData "alice" ["bob"]))
    by (apply list_elem_of_singleton; reflexivity).
  split_and!; [exact Hst|reflexivity|exact Hin|].
  apply (shared_with_users_registered (H := clear_text)
           Scenario.shared_with_bob "a.txt" (FileData "alice" ["bob"]) "bob" Hst);
    [reflexivity|exact Hin].
Defined.

(** ** The two lists of [get_files] *)

Lemma elem_of_owned_files (username f : string) (st : state) :
  f ∈ owned_files username st ↔
  ∃ data, files st !! f = Some data ∧ owner data = username.
Proof.
  unfold owned_files. rewrite list_elem_of_fmap. split.
  - intros ([f' data] & -> & [Hown Hin%elem_of_map_to_list]%list_elem_of_filter).
    eauto.
  - intros (data & Hdata & Hown). exists (f, data). split; [done|].
    apply list_elem_of_filter. split; [done|]. by apply elem_of_map_to_list.
Qed.

Lemma elem_of_shared_files (username f : string) (st : state) :
  f ∈ shared_files username st ↔
  ∃ data, files st !! f = Some data ∧ username ∈ shared_with data.
Proof.
  unfold shared_files. rewrite list_elem_of_fmap. split.
  - intros ([f' data] & -> & [Hsh Hin%elem_of_map_to_list]%list_elem_of_filter).
    eauto.
  - intros (data & Hdata & Hsh). exists (f, data). split; [done|].
    apply list_elem_of_filter. split; [done|]. by apply elem_of_map_to_list.
Qed.

(** C4, as stated, fails: in the reachable state where Alice has shared
    [a.txt] with herself, [get_files] answers Alice with [a.txt] in both
    lists. *)
Lemma get_files_lists_overlap :
  reachable (H := clear_text) Scenario.shared_with_self
  ∧ (get_files "alice" Scenario.shared_with_self).1
      = (FileLists ["a.txt"] ["a.txt"], 200)
  ∧ "a.txt" ∈ owned_files "alice" Scenario.shared_with_self
  ∧ "a.txt" ∈ shared_files "alice" Scenario.shared_with_self.
Proof.
  split_and!.
  - apply reachable_run, reachable_empty.
  - vm_compute. reflexivity.
  - apply elem_of_owned_files. exists (FileData "alice" ["alice"]).
    split; vm_compute; reflexivity.
  - apply elem_of_shared_files. exists (FileData "alice" ["alice"]).
    split; [vm_compute; reflexivity|].
    apply list_elem_of_singleton. reflexivity.
Qed.

(** C4, amended: in every state in which no record's [shared_with] contains
    the record's owner, the two lists answered by [get_files] (the files the
    caller owns and the files shared with the caller) have no name in
    common. *)
Theorem get_files_lists_disjoint
    (caller : string) (st : state) (owned shared : list string) :
  owner_not_shared st →
  (get_files caller st).1 = (FileLists owned shared, 200) →
  ∀ f, f ∈ owned → f ∉ shared.
Proof.
  intros Hinv Hresp f. unfold get_files in Hresp. simplify_eq/=.
  intros (data & Hdata & Hown)%elem_of_owned_files
         (data' & Hdata' & Hsh)%elem_of_shared_files.
  simplify_eq. by apply (Hinv f data).
Qed.

Lemma get_files_lists_disjoint_witness :
  owner_not_shared Scenario.shared_with_bob
  ∧ (get_files "alice" Scenario.shared_with_bob).1 = (FileLists ["a.txt"] [], 200)
  ∧ "a.txt" ∈ ["a.txt"]
  ∧ "a.txt" ∉ @nil string.
Proof.
  assert (Hinv : owner_not_shared Scenario.shared_with_bob).
  { apply (run_owner_not_shared (H := clear_text));
      [compute_done|apply (start_invariants ∅ ∅)]. }
  assert (Hresp : (get_files "alice" Scenario.shared_with_bob).1
                  = (FileLists ["a.txt"] [], 200))
    by (vm_compute; reflexivity).
  assert (Hin : "a.txt" ∈ ["a.txt"])
    by (apply list_elem_of_singleton; reflexivity).
  split_and!; [exact Hinv|exact Hresp|exact Hin|].
  exact (get_files_lists_disjoint "alice" Scenario.shared_with_bob
           ["a.txt"] [] Hinv Hresp "a.txt" Hin).
Defined.

(** ** Existence before ownership *)

(** C2, as stated, fails: Carol owns no file, [a.txt] has no record, and
    both [share_file] and [revoke_access] answer her 404 "File not found",
    not 403; the guard on the record's existence comes first. *)
Lemma non_owner_missing_file_not_found :
  files Scenario.registered !! "a.txt" = None
  ∧ share_file "carol" (Some "a.txt") (Some "bob") Scenario.registered
      = ((Error "File not found", 404), Scenario.registered)
  ∧ revoke_access "carol" (Some "a.txt") (Some "bob") Scenario.registered
      = ((Error "File not found", 404), Scenario.registered)
  ∧ kind_of (share_file "carol" (Some "a.txt") (Some "bob") Scenario.registered).1
      ≠ Some AccessDenied
  ∧ kind_of (revoke_access "carol" (Some "a.txt") (Some "bob") Scenario.registered).1
      ≠ Some AccessDenied.
Proof.
  assert (Hfile : files Scenario.registered !! "a.txt" = None) by reflexivity.
  split_and!; [done| | | |].
  - by apply share_file_not_found.
  - by apply revoke_access_not_found.
  - by rewrite share_file_not_found.
  - by rewrite revoke_access_not_found.
Qed.

(** C2, amended: for a caller who is not the owner of the file and a
    non-empty file name and target, [share_file] and [revoke_access] answer
    AccessDenied when the file has a record, and NotFound when it has none;
    the state is unchanged either way. *)
Theorem share_revoke_by_non_owner
    (caller name target : string) (st : state) :
  name ≠ "" → target ≠ "" →
  (∀ data, files st !! name = Some data → owner data ≠ caller) →
  (share_file caller (Some name) (Some target) st).2 = st
  ∧ (revoke_access caller (Some name) (Some target) st).2 = st
  ∧ kind_of (share_file caller (Some name) (Some target) st).1
    = match files st !! name with
      | Some _ => Some AccessDenied
      | None => Some NotFound
      end
  ∧ kind_of (revoke_access caller (Some name) (Some target) st).1
    = match files st !! name with
      | Some _ => Some AccessDenied
      | None => Some NotFound
      end.
Proof.
  intros Hname Htarget Hown.
  destruct (files st !! name) as [data|] eqn:Hfile.
  - rewrite (share_file_not_owner _ _ _ _ data), (revoke_access_not_owner _ _ _ _ data)
      by auto.
    done.
  - by rewrite share_file_not_found, revoke_access_not_found.
Qed.

Lemma share_revoke_by_non_owner_witness :
  "a.txt" ≠ "" ∧ "bob" ≠ ""
  ∧ (∀ data, files Scenario.uploaded !! "a.txt" = Some data → owner data ≠ "carol")
  ∧ kind_of (share_file "carol" (Some "a.txt") (Some "bob") Scenario.uploaded).1
      = Some AccessDenied
  ∧ kind_of (revoke_access "carol" (Some "a.txt") (Some "bob") Scenario.uploaded).1
      = Some AccessDenied.
Proof.
  assert (Hown : ∀ data, files Scenario.uploaded !! "a.txt" = Some data
                         → owner data ≠ "carol").
  { intros data Hdata. vm_compute in Hdata. by simplify_eq. }
  split_and!; [done|done|exact Hown| |];
    apply (share_revoke_by_non_owner "carol" "a.txt" "bob" Scenario.uploaded);
    done.
Defined.

(** C3, as stated, fails for [share_file] and [revoke_access]: the guard on
    empty fields comes before the guard on the record's existence, so a
    file name without a record (the empty name, or any name together with
    an empty target) is answered 400, not 404. *)
Lemma share_revoke_missing_field_first :
  files empty_state !! "" = None
  ∧ kind_of (share_file "carol" (Some "") (Some "bob") empty_state).1
      = Some InvalidInput
  ∧ kind_of (revoke_access "carol" (Some "") (Some "bob") empty_state).1
      = Some InvalidInput
  ∧ files empty_state !! "a.txt" = None
  ∧ kind_of (share_file "carol" (Some "a.txt") (Some "") empty_state).1
      = Some InvalidInput
  ∧ kind_of (revoke_access "carol" (Some "a.txt") None empty_state).1
      = Some InvalidInput.
Proof.
  split_and!; reflexivity.
Qed.

(** C3, amended: for every caller and every file name without a record,
    [download_file] and [delete_file] answer NotFound; [share_file] and
    [revoke_access] answer NotFound when the file name and the target are
    non-empty (InvalidInput otherwise); none of the four ever answers
    AccessDenied, and the state is unchanged. *)
Theorem missing_file_not_found (caller name : string) (st : state) :
  files st !! name = None →
  download_file caller name st = ((Error "File not found", 404), st)
  ∧ delete_file caller name st = ((Error "File not found", 404), st)
  ∧ (∀ target : string,
       kind_of (share_file caller (Some name) (Some target) st).1
         = (if decide (name = "" ∨ target = "") then Some InvalidInput
            else Some NotFound)
       ∧ kind_of (revoke_access caller (Some name) (Some target) st).1
         = (if decide (name = "" ∨ target = "") then Some InvalidInput
            else Some NotFound))
  ∧ (∀ target : option string,
       kind_of (share_file caller (Some name) target st).1 ≠ Some AccessDenied
       ∧ kind_of (revoke_access caller (Some name) target st).1 ≠ Some AccessDenied
       ∧ (share_file caller (Some name) target st).2 = st
       ∧ (revoke_access caller (Some name) target st).2 = st).
Proof.
  intros Hfile. split_and!.
  - by apply download_file_not_found.
  - by apply delete_file_not_found.
  - intros target. unfold share_file, revoke_access. rewrite Hfile.
    by case_decide.
  - intros target. unfold share_file, revoke_access. rewrite Hfile.
    destruct target as [target|]; [|done]. by case_decide.
Qed.

Lemma missing_file_not_found_witness :
  files Scenario.registered !! "a.txt" = None
  ∧ kind_of (download_file "carol" "a.txt" Scenario.registered).1 = Some NotFound
  ∧ kind_of (delete_file "carol" "a.txt" Scenario.registered).1 = Some NotFound
  ∧ kind_of (share_file "carol" (Some "a.txt") (Some "bob") Scenario.registered).1
      = Some NotFound
  ∧ kind_of (revoke_access "carol" (Some "a.txt") (Some "bob") Scenario.registered).1
      = Some NotFound.
Proof.
  assert (Hfile : files Scenario.registered !! "a.txt" = None) by reflexivity.
  destruct (missing_file_not_found "carol" "a.txt" Scenario.registered Hfile)
    as (Hdown & Hdel & Hshare & _).
  split_and!; [exact Hfile| | | |].
  - by rewrite Hdown.
  - by rewrite Hdel.
  - apply (Hshare "bob").
  - apply (Hshare "bob").
Defined.

(** ** Upload *)

(** An upload with a non-empty raw name either stores the file and the
    fresh record, or stops at [file.save] with the state untouched. *)
Lemma upload_file_cases (caller raw content : string) (st : state) :
  raw ≠ "" →
  (secure_filename raw ≠ ""
   ∧ upload_file caller (Some (raw, content)) st
     = ((Message "File uploaded successfully", 201),
        set_files (<[secure_filename raw := FileData caller []]> (files st))
          (set_uploads (<[secure_filename raw := content]> (uploads st)) st)))
  ∨ (secure_filename raw = ""
     ∧ upload_file caller (Some (raw, content)) st
       = ((Unhandled "IsADirectoryError", 500), st)).
Proof.
  intros Hraw. unfold upload_file, file_save.
  destruct (decide (raw = "")) as [?|_]; [done|].
  destruct (decide (secure_filename raw = "")) as [Hempty|Hname]; auto.
Qed.

(** C5: a successful upload leaves a record under the sanitized name whose
    owner is the caller and whose [shared_with] is empty, whatever record
    the name had before. *)
Theorem upload_file_replaces_record
    (caller raw content : string) (st : state) :
  secure_filename raw ≠ "" →
  status (upload_file caller (Some (raw, content)) st).1 = 201 →
  files (upload_file caller (Some (raw, content)) st).2 !! secure_filename raw
  = Some (FileData caller []).
Proof.
  intros Hname Hok.
  assert (Hraw : raw ≠ "") by (intros ->; by apply Hname).
  destruct (upload_file_cases caller raw content st Hraw)
    as [[_ Heq]|[Hempty _]]; [|done].
  rewrite Heq. simpl. apply lookup_insert_eq.
Qed.

Lemma upload_file_replaces_record_witness :
  secure_filename "a.txt" ≠ ""
  ∧ files Scenario.shared_with_bob !! "a.txt" = Some (FileData "alice" ["bob"])
  ∧ status (upload_file "carol" (Some ("a.txt", "new")) Scenario.shared_with_bob).1
      = 201
  ∧ files (upload_file "carol" (Some ("a.txt", "new")) Scenario.shared_with_bob).2
      !! secure_filename "a.txt" = Some (FileData "carol" []).
Proof.
  assert (Hname : secure_filename "a.txt" ≠ "") by done.
  assert (Hok : status (upload_file "carol" (Some ("a.txt", "new"))
                          Scenario.shared_with_bob).1 = 201) by reflexivity.
  split_and!; [exact Hname|reflexivity|exact Hok|].
  exact (upload_file_replaces_record "carol" "a.txt" "new"
           Scenario.shared_with_bob Hname Hok).
Defined.

(** C9, as stated, fails: no raw name whose sanitized form is empty is ever
    uploaded successfully.  For [".."] the handler passes the check on the
    raw name, computes the empty storage key and hands [file.save] the
    upload folder itself; the handler stops there with an uncaught
    exception, before [files] is written. *)
Lemma upload_empty_key_fails :
  upload_file "alice" (Some ("..", "data")) Scenario.registered
    = ((Unhandled "IsADirectoryError", 500), Scenario.registered)
  ∧ files (upload_file "alice" (Some ("..", "data")) Scenario.registered).2 !! ""
    = None
  ∧ ¬ ∃ (raw caller content : string) (st : state),
        raw ≠ "" ∧ secure_filename raw = ""
        ∧ status (upload_file caller (Some (raw, content)) st).1 = 201.
Proof.
  split_and!; [reflexivity|reflexivity|].
  intros (raw & caller & content & st & Hraw & Hempty & Hok).
  destruct (upload_file_cases caller raw content st Hraw)
    as [[Hname _]|[_ Heq]]; [done|].
  by rewrite Heq in Hok.
Qed.

(** C9, amended: the raw name [".."] is not empty and its sanitized form
    is; an upload under it is not rejected as InvalidInput, because the
    emptiness check reads the raw name only, and the same holds for every
    non-empty raw name.  The upload of [".."] ends in an internal failure
    instead and leaves the state, and so the registry, as it was. *)
Theorem upload_checks_raw_name_only
    (caller content : string) (st : state) :
  ".." ≠ "" ∧ secure_filename ".." = ""
  ∧ kind_of (upload_file caller (Some ("..", content)) st).1 = Some InternalFailure
  ∧ (upload_file caller (Some ("..", content)) st).2 = st
  ∧ ∀ (c : ascii) (raw : string),
      kind_of (upload_file caller (Some (String c raw, content)) st).1
        ≠ Some InvalidInput.
Proof.
  split_and!; try done.
  intros c raw.
  destruct (upload_file_cases caller (String c raw) content st)
    as [[_ ->]|[_ ->]]; done.
Qed.

(** ** Share and revoke by the owner *)

(** C6: when the owner shares an existing file, with non-empty arguments,
    with a user that is not registered, the answer is NotFound and the state
    is unchanged; the revoke request with the same arguments succeeds,
    whether the target is registered or not. *)
Theorem share_checks_target_revoke_does_not
    (caller name target : string) (st : state) (data : file_data) :
  name ≠ "" → target ≠ "" →
  files st !! name = Some data → owner data = caller →
  (users st !! target = None →
   share_file caller (Some name) (Some target) st
     = ((Error "Target user does not exist", 404), st)
   ∧ kind_of (share_file caller (Some name) (Some target) st).1 = Some NotFound)
  ∧ (revoke_access caller (Some name) (Some target) st).1
    = (Message "Access revoked successfully", 200)
  ∧ kind_of (revoke_access caller (Some name) (Some target) st).1 = None.
Proof.
  intros Hname Htarget Hfile Hown.
  assert (Hrevoke : (revoke_access caller (Some name) (Some target) st).1
                    = (Message "Access revoked successfully", 200)).
  { unfold revoke_access. rewrite Hfile.
    repeat case_decide; (tauto || done). }
  split; [|by rewrite Hrevoke].
  intros Huser.
  assert (Hshare : share_file caller (Some name) (Some target) st
                   = ((Error "Target user does not exist", 404), st)).
  { unfold share_file. rewrite Hfile.
    repeat case_decide; (tauto || done). }
  by rewrite Hshare.
Qed.

Lemma share_checks_target_revoke_does_not_witness :
  "a.txt" ≠ "" ∧ "mallory" ≠ ""
  ∧ files Scenario.uploaded !! "a.txt" = Some (FileData "alice" [])
  ∧ users Scenario.uploaded !! "mallory" = None
  ∧ share_file "alice" (Some "a.txt") (Some "mallory") Scenario.uploaded
    = ((Error "Target user does not exist", 404), Scenario.uploaded)
  ∧ (revoke_access "alice" (Some "a.txt") (Some "mallory") Scenario.uploaded).1
    = (Message "Access revoked successfully", 200).
Proof.
  assert (Hfile : files Scenario.uploaded !! "a.txt" = Some (FileData "alice" []))
    by reflexivity.
  assert (Huser : users Scenario.uploaded !! "mallory" = None) by reflexivity.
  destruct (share_checks_target_revoke_does_not "alice" "a.txt" "mallory"
              Scenario.uploaded (FileData "alice" []))
    as (Hshare & Hrevoke & _); [done|done|exact Hfile|reflexivity|].
  split_and!; [done|done|exact Hfile|exact Huser|exact (proj1 (Hshare Huser))
              |exact Hrevoke].
Defined.

(** A second share request with the same arguments is answered like the
    first and changes nothing any more. *)
Lemma share_file_twice (caller : string) (name target : option string) (st : state) :
  share_file caller name target (share_file caller name target st).2
  = share_file caller name target st.
Proof.
  unfold share_file at 2 3.
  destruct name as [name|], target as [target|];
    try (apply share_file_missing_field; auto; fail).
  destruct (decide (name = "" ∨ target = "")) as [Hempty|Hfields].
  { apply share_file_missing_field. destruct Hempty as [->| ->]; auto. }
  destruct (files st !! name) as [data|] eqn:Hfile.
  2: { simpl. unfold share_file. rewrite Hfile. by rewrite decide_False. }
  destruct (decide (owner data ≠ caller)) as [Hown|Hown].
  { simpl. unfold share_file. rewrite Hfile.
    by rewrite decide_False, decide_True. }
  destruct (decide (users st !! target = None)) as [Huser|Huser].
  { simpl. unfold share_file. rewrite Hfile.
    by rewrite decide_False, decide_False, decide_True. }
  destruct (decide (target ∉ shared_with data)) as [Hnew|Hold]; simpl.
  - unfold share_file. simpl. rewrite lookup_insert_eq. simpl.
    rewrite decide_False, decide_False, decide_False by done.
    rewrite decide_False; [done|].
    intros Hnot. apply Hnot, elem_of_app. right.
    by apply list_elem_of_singleton.
  - unfold share_file. rewrite Hfile.
    by rewrite decide_False, decide_False, decide_False, decide_False.
Qed.

(** The same for revoke, as long as share lists mention no user twice:
    [list.remove] drops one occurrence per call, and [share_file] never
    appends a name that is already listed. *)
Lemma revoke_access_twice (caller : string) (name target : option string)
    (st : state) :
  shares_nodup st →
  revoke_access caller name target (revoke_access caller name target st).2
  = revoke_access caller name target st.
Proof.
  intros Hnodup. unfold revoke_access at 2 3.
  destruct name as [name|], target as [target|];
    try (apply revoke_access_missing_field; auto; fail).
  destruct (decide (name = "" ∨ target = "")) as [Hempty|Hfields].
  { apply revoke_access_missing_field. destruct Hempty as [->| ->]; auto. }
  destruct (files st !! name) as [data|] eqn:Hfile.
  2: { simpl. unfold revoke_access. rewrite Hfile. by rewrite decide_False. }
  destruct (decide (owner data ≠ caller)) as [Hown|Hown].
  { simpl. unfold revoke_access. rewrite Hfile.
    by rewrite decide_False, decide_True. }
  destruct (decide (target ∈ shared_with data)) as [Hold|Hnew]; simpl.
  - unfold revoke_access. simpl. rewrite lookup_insert_eq. simpl.
    rewrite decide_False, decide_False by done.
    rewrite decide_False; [done|].
    apply remove_first_gone. by apply (Hnodup name).
  - unfold revoke_access. rewrite Hfile.
    by rewrite decide_False, decide_False, decide_False.
Qed.

(** C7: in every reachable state, serving the same share request twice
    gives the same answer and the same final state as serving it once, and
    so does serving the same revoke request twice. *)
Theorem share_revoke_idempotent `{!Bcrypt}
    (caller : string) (name target : option string) (st : state) :
  reachable st →
  share_file caller name target (share_file caller name target st).2
    = share_file caller name target st
  ∧ revoke_access caller name target (revoke_access caller name target st).2
    = revoke_access caller name target st.
Proof.
  intros Hst. split.
  - apply share_file_twice.
  - apply revoke_access_twice. by apply reachable_shares_nodup.
Qed.

Lemma share_revoke_idempotent_witness :
  reachable (H := clear_text) Scenario.uploaded
  ∧ (share_file "alice" (Some "a.txt") (Some "bob") Scenario.uploaded).2
    = Scenario.shared_with_bob
  ∧ share_file "alice" (Some "a.txt") (Some "bob") Scenario.shared_with_bob
    = ((Message "File shared successfully", 200), Scenario.shared_with_bob)
  ∧ revoke_access "alice" (Some "a.txt") (Some "bob")
      (revoke_access "alice" (Some "a.txt") (Some "bob") Scenario.shared_with_bob).2
    = revoke_access "alice" (Some "a.txt") (Some "bob") Scenario.shared_with_bob.
Proof.
  assert (Hup : reachable (H := clear_text) Scenario.uploaded)
    by apply reachable_run, reachable_empty.
  assert (Hsh : reachable (H := clear_text) Scenario.shared_with_bob)
    by apply reachable_run, reachable_empty.
  assert (Hstep : (share_file "alice" (Some "a.txt") (Some "bob") Scenario.uploaded).2
                  = Scenario.shared_with_bob) by reflexivity.
  split_and!; [exact Hup|exact Hstep| |].
  - rewrite <- Hstep at 1.
    rewrite (proj1 (share_revoke_idempotent (H := clear_text)
                      "alice" (Some "a.txt") (Some "bob") Scenario.uploaded Hup)).
    rewrite <- Hstep. reflexivity.
  - exact (proj2 (share_revoke_idempotent (H := clear_text)
                    "alice" (Some "a.txt") (Some "bob") Scenario.shared_with_bob Hsh)).
Defined.

(** ** Errors leave the stores alone *)

(** C8: whenever a request (register, login, list, upload, download,
    share, revoke or delete) is answered with an error of any kind, [users]
    and [files] are what they were before the request. *)
Theorem error_leaves_stores_unchanged `{!Bcrypt}
    (r : request) (st : state) (k : error_kind) :
  kind_of (handle r st).1 = Some k →
  users (handle r st).2 = users st ∧ files (handle r st).2 = files st.
Proof.
  intros Hkind. apply kind_of_status in Hkind.
  by rewrite (handle_error r st Hkind).
Qed.

Lemma error_leaves_stores_unchanged_witness :
  kind_of (handle (H := clear_text)
             (Register (Some "alice") (Some "other") "s9") Scenario.uploaded).1
    = Some DuplicateUser
  ∧ users (handle (H := clear_text)
             (Register (Some "alice") (Some "other") "s9") Scenario.uploaded).2
    = users Scenario.uploaded
  ∧ files (handle (H := clear_text)
             (Register (Some "alice") (Some "other") "s9") Scenario.uploaded).2
    = files Scenario.uploaded.
Proof.
  assert (Hkind : kind_of (handle (H := clear_text)
                    (Register (Some "alice") (Some "other") "s9")
                    Scenario.uploaded).1 = Some DuplicateUser) by reflexivity.
  split; [exact Hkind|].
  exact (error_leaves_stores_unchanged (H := clear_text)
           (Register (Some "alice") (Some "other") "s9") Scenario.uploaded
           DuplicateUser Hkind).
Defined.

(** ** What a successful request does to the state *)

Lemma share_file_ok (c n t : string) (st : state) (data : file_data) :
  n ≠ "" → t ≠ "" → files st !! n = Some data → owner data = c →
  is_Some (users st !! t) →
  share_file c (Some n) (Some t) st
  = ((Message "File shared successfully", 200),
     if decide (t ∉ shared_with data)
     then set_files (<[n := FileData (owner data) (shared_with data ++ [t])]>
                       (files st)) st
     else st).
Proof.
  intros Hn Ht Hfile Hown Huser. unfold share_file. rewrite Hfile.
  rewrite decide_False by tauto.
  rewrite decide_False by (intros ?; contradiction).
  rewrite decide_False by (by apply not_eq_None_Some).
  by case_decide.
Qed.

Lemma revoke_access_ok (c n t : string) (st : state) (data : file_data) :
  n ≠ "" → t ≠ "" → files st !! n = Some data → owner data = c →
  revoke_access c (Some n) (Some t) st
  = ((Message "Access revoked successfully", 200),
     if decide (t ∈ shared_with data)
     then set_files (<[n := FileData (owner data)
                              (remove_first t (shared_with data))]>
                       (files st)) st
     else st).
Proof.
  intros Hn Ht Hfile Hown. unfold revoke_access. rewrite Hfile.
  rewrite decide_False by tauto.
  rewrite decide_False by (intros ?; contradiction).
  by case_decide.
Qed.

Lemma delete_file_ok (c n : string) (st : state) (data : file_data) :
  files st !! n = Some data → owner data = c →
  delete_file c n st
  = ((Message "File deleted successfully", 200),
     set_files (delete n (files st))
       (set_uploads (file_remove n (uploads st)) st)).
Proof.
  intros Hfile Hown. unfold delete_file. rewrite Hfile.
  by rewrite decide_False by (intros ?; contradiction).
Qed.

Lemma download_file_ok (c n content : string) (st : state) (data : file_data) :
  files st !! n = Some data → owner data = c ∨ c ∈ shared_with data →
  uploads st !! n = Some content →
  download_file c n st = ((Attachment n content, 200), st).
Proof.
  intros Hfile Hauth Hcontent. unfold download_file, send_file.
  rewrite Hfile, Hcontent. by rewrite decide_False by tauto.
Qed.

Lemma download_file_denied (c n : string) (st : state) (data : file_data) :
  files st !! n = Some data → owner data ≠ c → c ∉ shared_with data →
  download_file c n st = ((Error "Access denied", 403), st).
Proof.
  intros Hfile Hown Hsh. unfold download_file. rewrite Hfile.
  by rewrite decide_True.
Qed.

Lemma remove_first_elem_ne (x t : string) (l : list string) :
  x ≠ t → x ∈ l → x ∈ remove_first t l.
Proof.
  intros Hne. induction l as [|y l IH]; simpl; [done|].
  rewrite elem_of_cons. case_decide as Heq.
  - intros [->|Hin]; [by subst|done].
  - rewrite elem_of_cons. intuition.
Qed.

(** ** The identity store *)

Section Identity.
Context `{!Bcrypt}.

Lemma register_ok (u p salt : string) (st : state) :
  u ≠ "" → p ≠ "" → users st !! u = None →
  register (Some u) (Some p) salt st
  = ((Message "User registered successfully", 201),
     save_users (set_users (<[u := User (hashpw p salt) []]> (users st)) st)).
Proof.
  intros Hu Hp Hfree. unfold register.
  rewrite decide_False by tauto.
  rewrite decide_False; [done|]. rewrite Hfree. by intros [? ?].
Qed.


Lemma handle_users_lookup r st u usr :
  users st !! u = Some usr → users (handle r st).2 !! u = Some usr.
Proof.
  intros Husr.
  destruct r as [un p s|un p|c|c f|c n|c n t|c n t|c n]; simpl.
  - unfold register. repeat (case_decide || case_match); simpl; auto.
    all: rewrite lookup_insert_ne; [done|].
    all: intros ->; match goal with H : ¬ is_Some _ |- _ => apply H end; eauto.
  - by rewrite login_unchanged.
  - done.
  - unfold upload_file. repeat (case_decide || case_match); simpl; auto.
  - by rewrite download_file_unchanged.
  - unfold share_file. repeat (case_decide || case_match); simpl; auto.
  - unfold revoke_access. repeat (case_decide || case_match); simpl; auto.
  - unfold delete_file. repeat (case_decide || case_match); simpl; auto.
Qed.

Lemma handle_users_saved r st : users_saved st → users_saved (handle r st).2.
Proof.
  unfold users_saved. intros Hsaved.
  destruct r as [un p s|un p|c|c f|c n|c n t|c n t|c n]; simpl.
  - unfold register. repeat (case_decide || case_match); simpl; auto.
  - by rewrite login_unchanged.
  - done.
  - unfold upload_file. repeat (case_decide || case_match); simpl; auto.
  - by rewrite download_file_unchanged.
  - unfold share_file. repeat (case_decide || case_match); simpl; auto.
  - unfold revoke_access. repeat (case_decide || case_match); simpl; auto.
  - unfold delete_file. repeat (case_decide || case_match); simpl; auto.
Qed.

Lemma reachable_users_saved st : reachable st → users_saved st.
Proof.
  induction 1 as [us up|r st _ IH]; [done|]. by apply handle_users_saved.
Qed.

End Identity.



(** X2: if the hash routine accepts a password against its own hash, a
    user who has just registered logs in with the same password and
    receives a token bound to the user name; logging in changes nothing. *)
Theorem register_then_login `{!Bcrypt}
    (u p salt : string) (st : state) :
  (∀ p s, checkpw p (hashpw p s) = true) →
  u ≠ "" → p ≠ "" → users st !! u = None →
  login (Some u) (Some p) (register (Some u) (Some p) salt st).2
  = ((AccessToken u, 200), (register (Some u) (Some p) salt st).2).
Proof.
  intros Hbcrypt Hu Hp Hfree. rewrite register_ok by done. simpl.
  unfold login. rewrite decide_False by tauto. simpl.
  rewrite lookup_insert_eq. simpl. by rewrite Hbcrypt.
Qed.

Lemma clear_text_accepts :
  ∀ p s, checkpw (Bcrypt := clear_text) p (hashpw (Bcrypt := clear_text) p s) = true.
Proof. intros p s. simpl. by apply bool_decide_eq_true. Qed.

Lemma register_then_login_witness :
  (∀ p s, checkpw (Bcrypt := clear_text) p (hashpw (Bcrypt := clear_text) p s) = true)
  ∧ "dave" ≠ "" ∧ "pw-d" ≠ "" ∧ users Scenario.registered !! "dave" = None
  ∧ (login (H := clear_text) (Some "dave") (Some "pw-d")
       (register (H := clear_text) (Some "dave") (Some "pw-d") "s4"
          Scenario.registered).2).1 = (AccessToken "dave", 200).
Proof.
  assert (Hfree : users Scenario.registered !! "dave" = None) by reflexivity.
  split_and!; [exact clear_text_accepts|done|done|exact Hfree|].
  rewrite (register_then_login (H := clear_text) "dave" "pw-d" "s4"
             Scenario.registered clear_text_accepts ltac:(done) ltac:(done) Hfree).
  reflexivity.
Defined.

(** X3: a login with non-empty fields that names an unknown user and one
    that gives a wrong password are answered with the very same response,
    status 401 with one fixed message, and change nothing. *)
Theorem login_failures_alike `{!Bcrypt} (u p : string) (st : state) :
  u ≠ "" → p ≠ "" →
  (users st !! u = None
   ∨ ∃ usr, users st !! u = Some usr ∧ checkpw p (user_password usr) = false) →
  login (Some u) (Some p) st = ((Error "Invalid username or password", 401), st).
Proof.
  intros Hu Hp Hbad. unfold login. rewrite decide_False by tauto.
  destruct Hbad as [->|(usr & -> & ->)]; done.
Qed.

Lemma login_failures_alike_witness :
  login (H := clear_text) (Some "mallory") (Some "pw-a") Scenario.registered
  = ((Error "Invalid username or password", 401), Scenario.registered)
  ∧ login (H := clear_text) (Some "alice") (Some "wrong") Scenario.registered
    = ((Error "Invalid username or password", 401), Scenario.registered).
Proof.
  split.
  - apply (login_failures_alike (H := clear_text)); [done|done|].
    left. reflexivity.
  - apply (login_failures_alike (H := clear_text)); [done|done|].
    right. exists (User "pw-a" []). split; reflexivity.
Defined.

(** X4: in every reachable state [users.json] holds exactly what [users]
    holds: [register] saves after every insertion and nothing else writes
    either of them. *)
Theorem users_json_in_step `{!Bcrypt} (st : state) :
  reachable st → users_json st = users st.
Proof. apply reachable_users_saved. Qed.

Lemma users_json_in_step_witness :
  reachable (H := clear_text) Scenario.uploaded
  ∧ users_json Scenario.uploaded = users Scenario.uploaded.
Proof.
  assert (Hst : reachable (H := clear_text) Scenario.uploaded)
    by apply reachable_run, reachable_empty.
  split; [exact Hst|].
  exact (users_json_in_step (H := clear_text) Scenario.uploaded Hst).
Defined.

(** X5: registered users are never removed and their stored credential
    never changes, whatever requests follow. *)
Theorem users_keep_credentials `{!Bcrypt}
    (rs : list request) (st : state) (u : string) (usr : user) :
  users st !! u = Some usr → users (run rs st) !! u = Some usr.
Proof.
  revert st. induction rs as [|r rs IH]; intros st Husr; [done|].
  rewrite run_cons. by apply IH, handle_users_lookup.
Qed.

Lemma users_keep_credentials_witness :
  users Scenario.registered !! "alice" = Some (User "pw-a" [])
  ∧ users (run (H := clear_text)
             [Register (Some "alice") (Some "stolen") "s7";
              Upload "bob" (Some ("b.txt", "x"));
              Delete "bob" "b.txt"] Scenario.registered) !! "alice"
    = Some (User "pw-a" []).
Proof.
  assert (Husr : users Scenario.registered !! "alice" = Some (User "pw-a" []))
    by reflexivity.
  split; [exact Husr|].
  exact (users_keep_credentials (H := clear_text) _ Scenario.registered
           "alice" (User "pw-a" []) Husr).
Defined.

(** ** Restart *)

(** X6: when the process is restarted from a reachable state, the users
    are the ones registered before and the upload folder is as it was left,
    but [files] is empty: every download, also by a former owner, is
    answered "File not found" although the content is still stored. *)
Theorem restart_forgets_files `{!Bcrypt} (st : state) :
  reachable st →
  reachable (restart st)
  ∧ users (restart st) = users st
  ∧ uploads (restart st) = uploads st
  ∧ files (restart st) = ∅
  ∧ ∀ caller name,
      download_file caller name (restart st)
      = ((Error "File not found", 404), restart st).
Proof.
  intros Hst. split_and!.
  - apply reachable_start.
  - simpl. by apply reachable_users_saved.
  - done.
  - done.
  - intros caller name. apply download_file_not_found. apply lookup_empty.
Qed.

Lemma restart_forgets_files_witness :
  reachable (H := clear_text) Scenario.uploaded
  ∧ (download_file "alice" "a.txt" Scenario.uploaded).1
    = (Attachment "a.txt" "data", 200)
  ∧ uploads (restart Scenario.uploaded) !! "a.txt" = Some "data"
  ∧ (download_file "alice" "a.txt" (restart Scenario.uploaded)).1
    = (Error "File not found", 404).
Proof.
  assert (Hst : reachable (H := clear_text) Scenario.uploaded)
    by apply reachable_run, reachable_empty.
  destruct (restart_forgets_files (H := clear_text) Scenario.uploaded Hst)
    as (_ & _ & _ & _ & Hdown).
  split_and!; [exact Hst|reflexivity|reflexivity|].
  by rewrite Hdown.
Defined.

(** ** Content and records *)

Section Content.
Context `{!Bcrypt}.

Lemma handle_content_stored r st : content_stored st → content_stored (handle r st).2.
Proof.
  unfold content_stored. intros Hinv name data.
  destruct r as [un p s|un p|c|c f|c n|c n t|c n t|c n]; simpl.
  - unfold register. repeat (case_decide || case_match); simpl; eauto.
  - rewrite login_unchanged. eauto.
  - eauto.
  - unfold upload_file, file_save.
    repeat (case_decide || case_match); simplify_eq/=; eauto.
    all: rewrite !lookup_insert; case_decide; eauto.
  - rewrite download_file_unchanged. eauto.
  - unfold share_file. repeat (case_decide || case_match); simpl; eauto.
    all: rewrite lookup_insert; case_decide; intros; simplify_eq; eauto.
  - unfold revoke_access. repeat (case_decide || case_match); simpl; eauto.
    all: rewrite lookup_insert; case_decide; intros; simplify_eq; eauto.
  - unfold delete_file, file_remove.
    repeat (case_decide || case_match); simpl; eauto.
    all: rewrite !lookup_delete; case_decide; [done|eauto].
Qed.

Lemma reachable_content_stored st : reachable st → content_stored st.
Proof.
  induction 1 as [us up|r st _ IH].
  - intros name data. simpl. by rewrite lookup_empty.
  - by apply handle_content_stored.
Qed.

End Content.

(** X7: in every reachable state a caller who owns a file, or is in its
    [shared_with], downloads it successfully: the content is in the upload
    folder and comes back as an attachment under the file's name, and the
    state is unchanged. *)
Theorem download_by_authorized `{!Bcrypt}
    (caller name : string) (st : state) (data : file_data) :
  reachable st →
  files st !! name = Some data →
  owner data = caller ∨ caller ∈ shared_with data →
  ∃ content,
    uploads st !! name = Some content
    ∧ download_file caller name st = ((Attachment name content, 200), st).
Proof.
  intros Hst Hfile Hauth.
  destruct (reachable_content_stored st Hst name data Hfile) as [content Hc].
  exists content. split; [done|]. by eapply download_file_ok.
Qed.

Lemma download_by_authorized_witness :
  reachable (H := clear_text) Scenario.shared_with_bob
  ∧ files Scenario.shared_with_bob !! "a.txt" = Some (FileData "alice" ["bob"])
  ∧ "bob" ∈ shared_with (FileData "alice" ["bob"])
  ∧ ∃ content,
      uploads Scenario.shared_with_bob !! "a.txt" = Some content
      ∧ download_file "bob" "a.txt" Scenario.shared_with_bob
        = ((Attachment "a.txt" content, 200), Scenario.shared_with_bob).
Proof.
  assert (Hst : reachable (H := clear_text) Scenario.shared_with_bob)
    by apply reachable_run, reachable_empty.
  assert (Hfile : files Scenario.shared_with_bob !! "a.txt"
                  = Some (FileData "alice" ["bob"])) by reflexivity.
  assert (Hin : "bob" ∈ shared_with (FileData "alice" ["bob"]))
    by (apply list_elem_of_singleton; reflexivity).
  split_and!; [exact Hst|exact Hfile|exact Hin|].
  exact (download_by_authorized (H := clear_text) "bob" "a.txt"
           Scenario.shared_with_bob _ Hst Hfile (or_intror Hin)).
Defined.

(** X8: in any state, a download that is answered with status 200 was
    asked by the file's owner or by a user in its [shared_with], and what it
    returns is the content stored under that name; every other caller gets
    an error and no content. *)
Theorem download_only_authorized
    (caller name : string) (st : state) :
  status (download_file caller name st).1 = 200 →
  ∃ data content,
    files st !! name = Some data
    ∧ (owner data = caller ∨ caller ∈ shared_with data)
    ∧ uploads st !! name = Some content
    ∧ (download_file caller name st).1 = (Attachment name content, 200).
Proof.
  unfold download_file, send_file.
  destruct (files st !! name) as [data|] eqn:Hfile; [|done].
  destruct (decide (owner data ≠ caller ∧ caller ∉ shared_with data))
    as [Hno|Hyes]; [done|].
  destruct (uploads st !! name) as [content|] eqn:Hcontent; [|done].
  intros _. exists data, content. split_and!; try done.
  destruct (decide (owner data = caller)); [by left|right].
  apply dec_stable. tauto.
Qed.

Lemma download_only_authorized_witness :
  status (download_file "alice" "a.txt" Scenario.uploaded).1 = 200
  ∧ ∃ data content,
      files Scenario.uploaded !! "a.txt" = Some data
      ∧ (owner data = "alice" ∨ "alice" ∈ shared_with data)
      ∧ uploads Scenario.uploaded !! "a.txt" = Some content
      ∧ (download_file "alice" "a.txt" Scenario.uploaded).1
        = (Attachment "a.txt" content, 200).
Proof.
  assert (Hok : status (download_file "alice" "a.txt" Scenario.uploaded).1 = 200)
    by reflexivity.
  split; [exact Hok|].
  exact (download_only_authorized "alice" "a.txt" Scenario.uploaded Hok).
Defined.

(** ** Upload, then list and download *)

Lemma upload_file_ok (caller raw content : string) (st : state) :
  secure_filename raw ≠ "" →
  upload_file caller (Some (raw, content)) st
  = ((Message "File uploaded successfully", 201),
     set_files (<[secure_filename raw := FileData caller []]> (files st))
       (set_uploads (<[secure_filename raw := content]> (uploads st)) st)).
Proof.
  intros Hname.
  assert (Hraw : raw ≠ "") by (intros ->; by apply Hname).
  by destruct (upload_file_cases caller raw content st Hraw) as [[_ ?]|[? _]].
Qed.

(** X9: what has been uploaded comes back: after an upload whose sanitized
    name is not empty, the uploader's download of that name returns exactly
    the uploaded content, replacing whatever was stored under the name. *)
Theorem upload_then_download
    (caller raw content : string) (st : state) :
  secure_filename raw ≠ "" →
  download_file caller (secure_filename raw)
    (upload_file caller (Some (raw, content)) st).2
  = ((Attachment (secure_filename raw) content, 200),
     (upload_file caller (Some (raw, content)) st).2).
Proof.
  intros Hname. rewrite upload_file_ok by done. simpl.
  apply (download_file_ok _ _ _ _ (FileData caller [])); simpl.
  - apply lookup_insert_eq.
  - by left.
  - apply lookup_insert_eq.
Qed.

Lemma upload_then_download_witness :
  secure_filename "../a.txt" ≠ ""
  ∧ (download_file "carol" "a.txt"
       (upload_file "carol" (Some ("../a.txt", "new")) Scenario.shared_with_bob).2).1
    = (Attachment "a.txt" "new", 200).
Proof.
  assert (Hname : secure_filename "../a.txt" ≠ "") by done.
  split; [exact Hname|].
  change "a.txt" with (secure_filename "../a.txt") at 1.
  rewrite (upload_then_download "carol" "../a.txt" "new"
             Scenario.shared_with_bob Hname).
  reflexivity.
Defined.

(** X10: after a successful upload the file is in the uploader's owned
    list, in nobody else's owned list and in nobody's shared list. *)
Theorem upload_then_list
    (caller raw content : string) (st : state) :
  secure_filename raw ≠ "" →
  secure_filename raw
    ∈ owned_files caller (upload_file caller (Some (raw, content)) st).2
  ∧ (∀ other, other ≠ caller →
       secure_filename raw
         ∉ owned_files other (upload_file caller (Some (raw, content)) st).2)
  ∧ (∀ anyone,
       secure_filename raw
         ∉ shared_files anyone (upload_file caller (Some (raw, content)) st).2).
Proof.
  intros Hname. rewrite upload_file_ok by done. simpl. split_and!.
  - apply elem_of_owned_files. exists (FileData caller []). simpl.
    split; [apply lookup_insert_eq|done].
  - intros other Hother (data & Hdata & Hown)%elem_of_owned_files.
    simpl in Hdata. rewrite lookup_insert_eq in Hdata. by simplify_eq.
  - intros anyone (data & Hdata & Hsh)%elem_of_shared_files.
    simpl in Hdata. rewrite lookup_insert_eq in Hdata. simplify_eq.
    by apply elem_of_nil in Hsh.
Qed.

Lemma upload_then_list_witness :
  secure_filename "a.txt" ≠ ""
  ∧ "a.txt" ∈ owned_files "carol"
      (upload_file "carol" (Some ("a.txt", "new")) Scenario.shared_with_bob).2
  ∧ ("a.txt" ∉ owned_files "alice"
      (upload_file "carol" (Some ("a.txt", "new")) Scenario.shared_with_bob).2)
  ∧ ("a.txt" ∉ shared_files "bob"
      (upload_file "carol" (Some ("a.txt", "new")) Scenario.shared_with_bob).2).
Proof.
  assert (Hname : secure_filename "a.txt" ≠ "") by done.
  destruct (upload_then_list "carol" "a.txt" "new" Scenario.shared_with_bob Hname)
    as (Hown & Hother & Hshared).
  split_and!; [exact Hname|exact Hown|by apply Hother|apply Hshared].
Defined.

(** X11: an upload touches one name only: the records and the stored
    content of every other name, and all users, are as before, whether the
    upload succeeds or not. *)
Theorem upload_leaves_other_files
    (caller : string) (file : option (string * string)) (st : state)
    (name : string) :
  (∀ raw content, file = Some (raw, content) → name ≠ secure_filename raw) →
  files (upload_file caller file st).2 !! name = files st !! name
  ∧ uploads (upload_file caller file st).2 !! name = uploads st !! name
  ∧ users (upload_file caller file st).2 = users st.
Proof.
  intros Hother. destruct file as [[raw content]|]; [|done].
  specialize (Hother raw content eq_refl).
  unfold upload_file, file_save.
  repeat case_decide; simpl; try done.
  by rewrite !lookup_insert_ne.
Qed.

Lemma upload_leaves_other_files_witness :
  (∀ raw content, Some ("b.txt", "x") = Some (raw, content)
                  → "a.txt" ≠ secure_filename raw)
  ∧ files (upload_file "bob" (Some ("b.txt", "x")) Scenario.shared_with_bob).2
      !! "a.txt" = Some (FileData "alice" ["bob"]).
Proof.
  assert (Hother : ∀ raw content, Some ("b.txt", "x") = Some (raw, content)
                                  → "a.txt" ≠ secure_filename raw).
  { intros raw content Heq. by simplify_eq. }
  split; [exact Hother|].
  rewrite (proj1 (upload_leaves_other_files "bob" (Some ("b.txt", "x"))
                    Scenario.shared_with_bob "a.txt" Hother)).
  reflexivity.
Defined.

(** ** Share, revoke and delete, then list and download *)

(** X12: after the owner has shared a file with a registered user, in a
    reachable state, that user finds the file in their shared list and
    downloads its stored content. *)
Theorem share_then_access `{!Bcrypt}
    (caller name target : string) (st : state) (data : file_data) :
  reachable st →
  name ≠ "" → target ≠ "" →
  files st !! name = Some data → owner data = caller →
  is_Some (users st !! target) →
  (share_file caller (Some name) (Some target) st).1
  = (Message "File shared successfully", 200)
  ∧ name ∈ shared_files target (share_file caller (Some name) (Some target) st).2
  ∧ ∃ content,
      uploads st !! name = Some content
      ∧ download_file target name
          (share_file caller (Some name) (Some target) st).2
        = ((Attachment name content, 200),
           (share_file caller (Some name) (Some target) st).2).
Proof.
  intros Hst Hname Htarget Hfile Hown Huser.
  destruct (reachable_content_stored st Hst name data Hfile) as [content Hc].
  rewrite (share_file_ok _ _ _ _ data) by done. simpl.
  destruct (decide (target ∉ shared_with data)) as [Hnew|Hold%dec_stable].
  - split_and!; [done| |exists content; split; [done|]].
    + apply elem_of_shared_files. eexists. simpl.
      split; [apply lookup_insert_eq|]. simpl.
      apply elem_of_app. right. by apply list_elem_of_singleton.
    + eapply download_file_ok; simpl; [apply lookup_insert_eq| |done].
      right. simpl. apply elem_of_app. right. by apply list_elem_of_singleton.
  - split_and!; [done| |exists content; split; [done|]].
    + apply elem_of_shared_files. eauto.
    + eapply download_file_ok; eauto.
Qed.

Lemma share_then_access_witness :
  reachable (H := clear_text) Scenario.uploaded
  ∧ files Scenario.uploaded !! "a.txt" = Some (FileData "alice" [])
  ∧ is_Some (users Scenario.uploaded !! "bob")
  ∧ "a.txt" ∈ shared_files "bob"
      (share_file "alice" (Some "a.txt") (Some "bob") Scenario.uploaded).2.
Proof.
  assert (Hst : reachable (H := clear_text) Scenario.uploaded)
    by apply reachable_run, reachable_empty.
  assert (Hfile : files Scenario.uploaded !! "a.txt" = Some (FileData "alice" []))
    by reflexivity.
  assert (Huser : is_Some (users Scenario.uploaded !! "bob"))
    by (exists (User "pw-b" []); reflexivity).
  split_and!; [exact Hst|exact Hfile|exact Huser|].
  apply (share_then_access (H := clear_text) "alice" "a.txt" "bob"
           Scenario.uploaded (FileData "alice" []) Hst);
    [done|done|exact Hfile|reflexivity|exact Huser].
Defined.

(** X13: after the owner has revoked a user other than themself, in a
    reachable state, that user no longer finds the file in their shared list
    and their download is refused with AccessDenied. *)
Theorem revoke_then_denied `{!Bcrypt}
    (caller name target : string) (st : state) (data : file_data) :
  reachable st →
  name ≠ "" → target ≠ "" →
  files st !! name = Some data → owner data = caller → target ≠ caller →
  (revoke_access caller (Some name) (Some target) st).1
  = (Message "Access revoked successfully", 200)
  ∧ (name ∉ shared_files target
              (revoke_access caller (Some name) (Some target) st).2)
  ∧ download_file target name (revoke_access caller (Some name) (Some target) st).2
    = ((Error "Access denied", 403),
       (revoke_access caller (Some name) (Some target) st).2).
Proof.
  intros Hst Hname Htarget Hfile Hown Hother.
  pose proof (reachable_shares_nodup st Hst name data Hfile) as Hnodup.
  rewrite (revoke_access_ok _ _ _ _ data) by done. simpl.
  destruct (decide (target ∈ shared_with data)) as [Hold|Hnew].
  - split_and!; [done| |].
    + intros (data' & Hdata' & Hsh)%elem_of_shared_files.
      simpl in Hdata'. rewrite lookup_insert_eq in Hdata'. simplify_eq/=.
      by apply (remove_first_gone target (shared_with data)).
    + eapply download_file_denied; simpl; [apply lookup_insert_eq| |]; simpl.
      * congruence.
      * by apply remove_first_gone.
  - split_and!; [done| |].
    + intros (data' & Hdata' & Hsh)%elem_of_shared_files. by simplify_eq.
    + eapply download_file_denied; [done|congruence|done].
Qed.

Lemma revoke_then_denied_witness :
  reachable (H := clear_text) Scenario.shared_with_bob
  ∧ files Scenario.shared_with_bob !! "a.txt" = Some (FileData "alice" ["bob"])
  ∧ "bob" ≠ "alice"
  ∧ (download_file "bob" "a.txt" Scenario.shared_with_bob).1
    = (Attachment "a.txt" "data", 200)
  ∧ (download_file "bob" "a.txt"
       (revoke_access "alice" (Some "a.txt") (Some "bob")
          Scenario.shared_with_bob).2).1
    = (Error "Access denied", 403).
Proof.
  assert (Hst : reachable (H := clear_text) Scenario.shared_with_bob)
    by apply reachable_run, reachable_empty.
  assert (Hfile : files Scenario.shared_with_bob !! "a.txt"
                  = Some (FileData "alice" ["bob"])) by reflexivity.
  destruct (revoke_then_denied (H := clear_text) "alice" "a.txt" "bob"
              Scenario.shared_with_bob (FileData "alice" ["bob"]) Hst)
    as (_ & _ & Hdown); [done|done|exact Hfile|reflexivity|done|].
  split_and!; [exact Hst|exact Hfile|done|reflexivity|].
  by rewrite Hdown.
Defined.

Lemma share_file_state (c t : string) (name : option string) (st : state) :
  (share_file c name (Some t) st).2 = st
  ∨ ∃ n data,
      files st !! n = Some data
      ∧ (share_file c name (Some t) st).2
        = set_files (<[n := FileData (owner data) (shared_with data ++ [t])]>
                       (files st)) st.
Proof.
  unfold share_file. repeat (case_decide || case_match); simpl; eauto 10.
Qed.

Lemma revoke_access_state (c t : string) (name : option string) (st : state) :
  (revoke_access c name (Some t) st).2 = st
  ∨ ∃ n data,
      files st !! n = Some data
      ∧ (revoke_access c name (Some t) st).2
        = set_files (<[n := FileData (owner data)
                                 (remove_first t (shared_with data))]>
                       (files st)) st.
Proof.
  unfold revoke_access. repeat (case_decide || case_match); simpl; eauto 10.
Qed.

(** The answer to a download depends on the record only through its owner
    and through the caller's membership in its share list. *)
Lemma download_file_update (other file n : string) (st : state)
    (data data' : file_data) :
  files st !! n = Some data →
  owner data' = owner data →
  (other ∈ shared_with data' ↔ other ∈ shared_with data) →
  (download_file other file (set_files (<[n := data']> (files st)) st)).1
  = (download_file other file st).1.
Proof.
  intros Hfile Hown Hiff. unfold download_file, send_file. simpl.
  destruct (decide (n = file)) as [->|Hne].
  - rewrite lookup_insert_eq, Hfile.
    destruct (decide (owner data' ≠ other ∧ other ∉ shared_with data'))
      as [Hno|Hyes];
      destruct (decide (owner data ≠ other ∧ other ∉ shared_with data))
        as [Hno'|Hyes']; try done; exfalso.
    + apply Hyes'. rewrite <- Hown, <- Hiff. done.
    + apply Hyes. rewrite Hown, Hiff. done.
  - rewrite lookup_insert_ne by done.
    destruct (files st !! file); [|done]. by case_decide.
Qed.

(** X14: sharing with or revoking one user changes nobody else's access:
    for every other user and every file name, a download is answered
    after the request exactly as it was before, whatever the request's
    outcome. *)
Theorem share_revoke_affect_target_only
    (caller target other : string) (name : option string) (st : state)
    (file : string) :
  other ≠ target →
  (download_file other file (share_file caller name (Some target) st).2).1
  = (download_file other file st).1
  ∧ (download_file other file (revoke_access caller name (Some target) st).2).1
    = (download_file other file st).1.
Proof.
  intros Hother. split.
  - destruct (share_file_state caller target name st)
      as [->|(n & data & Hfile & ->)]; [done|].
    apply (download_file_update _ _ _ _ data); [done|done|]. simpl.
    rewrite elem_of_app, list_elem_of_singleton. tauto.
  - destruct (revoke_access_state caller target name st)
      as [->|(n & data & Hfile & ->)]; [done|].
    apply (download_file_update _ _ _ _ data); [done|done|]. simpl. split.
    + apply remove_first_elem.
    + by apply remove_first_elem_ne.
Qed.

Lemma share_revoke_affect_target_only_witness :
  "bob" ≠ "carol"
  ∧ (download_file "bob" "a.txt"
       (revoke_access "alice" (Some "a.txt") (Some "carol")
          Scenario.shared_with_bob).2).1
    = (Attachment "a.txt" "data", 200).
Proof.
  split; [done|].
  rewrite (proj2 (share_revoke_affect_target_only "alice" "carol" "bob"
                    (Some "a.txt") Scenario.shared_with_bob "a.txt"
                    ltac:(done))).
  reflexivity.
Defined.

(** X15: after the owner has deleted a file, its record and its stored
    content are gone, so every download and every further delete of the
    name is answered "File not found"; the records of all other names are
    as before. *)
Theorem delete_then_gone
    (caller name : string) (st : state) (data : file_data) :
  files st !! name = Some data → owner data = caller →
  (delete_file caller name st).1 = (Message "File deleted successfully", 200)
  ∧ files (delete_file caller name st).2 !! name = None
  ∧ uploads (delete_file caller name st).2 !! name = None
  ∧ (∀ anyone,
       download_file anyone name (delete_file caller name st).2
       = ((Error "File not found", 404), (delete_file caller name st).2)
       ∧ delete_file anyone name (delete_file caller name st).2
         = ((Error "File not found", 404), (delete_file caller name st).2))
  ∧ (∀ other, other ≠ name →
       files (delete_file caller name st).2 !! other = files st !! other).
Proof.
  intros Hfile Hown. rewrite (delete_file_ok _ _ _ data) by done. simpl.
  assert (Hgone : delete name (files st) !! name = None) by apply lookup_delete_eq.
  split_and!; [done|done|apply lookup_delete_eq| |].
  - intros anyone. split.
    + by apply download_file_not_found.
    + by apply delete_file_not_found.
  - intros other Hother. by rewrite lookup_delete_ne.
Qed.

Lemma delete_then_gone_witness :
  files Scenario.shared_with_bob !! "a.txt" = Some (FileData "alice" ["bob"])
  ∧ (download_file "bob" "a.txt"
       (delete_file "alice" "a.txt" Scenario.shared_with_bob).2).1
    = (Error "File not found", 404)
  ∧ (delete_file "alice" "a.txt"
       (delete_file "alice" "a.txt" Scenario.shared_with_bob).2).1
    = (Error "File not found", 404).
Proof.
  assert (Hfile : files Scenario.shared_with_bob !! "a.txt"
                  = Some (FileData "alice" ["bob"])) by reflexivity.
  destruct (delete_then_gone "alice" "a.txt" Scenario.shared_with_bob
              (FileData "alice" ["bob"]) Hfile eq_refl)
    as (_ & _ & _ & Hgone & _).
  split_and!; [exact Hfile| |].
  - by rewrite (proj1 (Hgone "bob")).
  - by rewrite (proj2 (Hgone "alice")).
Defined.

(** ** Who can change a record *)

(** X16: apart from uploads, a request changes the record of a name only
    when that record exists and the request runs under its owner's
    identity: no share, revoke or delete by anybody else, and no register,
    login, list or download, alters any record. *)
Theorem only_owner_changes_record `{!Bcrypt}
    (r : request) (st : state) (name : string) :
  ¬ is_upload r →
  files (handle r st).2 !! name ≠ files st !! name →
  ∃ data, files st !! name = Some data ∧ caller_of r = Some (owner data).
Proof.
  intros Hup.
  destruct r as [un p s|un p|c|c f|c n|c n t|c n t|c n]; simpl.
  - unfold register. by repeat (case_decide || case_match).
  - by rewrite login_unchanged.
  - done.
  - by destruct Hup.
  - by rewrite download_file_unchanged.
  - unfold share_file. repeat (case_decide || case_match); simpl; try done.
    all: rewrite lookup_insert; case_decide; [subst|done].
    all: intros _; eexists; split; [done|f_equal; by apply dec_stable].
  - unfold revoke_access. repeat (case_decide || case_match); simpl; try done.
    all: rewrite lookup_insert; case_decide; [subst|done].
    all: intros _; eexists; split; [done|f_equal; by apply dec_stable].
  - unfold delete_file. repeat (case_decide || case_match); simpl; try done.
    all: rewrite lookup_delete; case_decide; [subst|done].
    all: intros _; eexists; split; [done|f_equal; by apply dec_stable].
Qed.

Lemma only_owner_changes_record_witness :
  ¬ is_upload (Delete "alice" "a.txt")
  ∧ files (handle (H := clear_text) (Delete "alice" "a.txt")
             Scenario.shared_with_bob).2 !! "a.txt"
    ≠ files Scenario.shared_with_bob !! "a.txt"
  ∧ ∃ data, files Scenario.shared_with_bob !! "a.txt" = Some data
            ∧ caller_of (Delete "alice" "a.txt") = Some (owner data).
Proof.
  assert (Hup : ¬ is_upload (Delete "alice" "a.txt")) by (intros []).
  assert (Hch : files (handle (H := clear_text) (Delete "alice" "a.txt")
                         Scenario.shared_with_bob).2 !! "a.txt"
                ≠ files Scenario.shared_with_bob !! "a.txt")
    by (vm_compute; discriminate).
  split_and!; [exact Hup|exact Hch|].
  exact (only_owner_changes_record (H := clear_text) (Delete "alice" "a.txt")
           Scenario.shared_with_bob "a.txt" Hup Hch).
Defined.

(** X17: the owner of a record changes only through an upload: across
    any other request a record that survives keeps its owner. *)
Theorem owner_changes_only_by_upload `{!Bcrypt}
    (r : request) (st : state) (name : string) (data data' : file_data) :
  ¬ is_upload r →
  files st !! name = Some data →
  files (handle r st).2 !! name = Some data' →
  owner data' = owner data.
Proof.
  intros Hup Hold Hnew.
  apply handle_files_lookup in Hnew
    as [Hsame|[(c & f & -> & _)|[(c & n & t & old & _ & Hold' & _ & _ & _ & ->)
                                |(c & n & t & old & _ & Hold' & ->)]]];
    simpl; [congruence|by destruct Hup|congruence|congruence].
Qed.

Lemma owner_changes_only_by_upload_witness :
  ¬ is_upload (Share "alice" (Some "a.txt") (Some "bob"))
  ∧ files Scenario.uploaded !! "a.txt" = Some (FileData "alice" [])
  ∧ files (handle (H := clear_text) (Share "alice" (Some "a.txt") (Some "bob"))
             Scenario.uploaded).2 !! "a.txt" = Some (FileData "alice" ["bob"])
  ∧ owner (FileData "alice" ["bob"]) = owner (FileData "alice" []).
Proof.
  assert (Hup : ¬ is_upload (Share "alice" (Some "a.txt") (Some "bob")))
    by (intros []).
  assert (Hold : files Scenario.uploaded !! "a.txt" = Some (FileData "alice" []))
    by reflexivity.
  assert (Hnew : files (handle (H := clear_text)
                          (Share "alice" (Some "a.txt") (Some "bob"))
                          Scenario.uploaded).2 !! "a.txt"
                 = Some (FileData "alice" ["bob"])) by reflexivity.
  split_and!; [exact Hup|exact Hold|exact Hnew|].
  exact (owner_changes_only_by_upload (H := clear_text) _ Scenario.uploaded
           "a.txt" _ _ Hup Hold Hnew).
Defined.

(** ** Storage keys *)

Lemma lstrip_Forall (P : ascii → Prop) (l : list ascii) :
  Forall P l → Forall P (lstrip l).
Proof.
  induction 1 as [|c l Hc Hl IH]; simpl; [constructor|].
  destruct (is_dot_or_underscore c); [done|by constructor].
Qed.

Lemma filter_is_safe (l : list ascii) :
  Forall (λ c, is_safe c = true) (List.filter is_safe l).
Proof.
  induction l as [|c l IH]; simpl; [constructor|].
  destruct (is_safe c) eqn:Hc; [by constructor|done].
Qed.

Lemma secure_filename_safe (raw : string) :
  Forall (λ c, is_safe c = true) (list_ascii_of_string (secure_filename raw)).
Proof.
  unfold secure_filename, strip.
  rewrite list_ascii_of_string_of_list_ascii.
  apply List.Forall_rev, lstrip_Forall, List.Forall_rev, lstrip_Forall.
  apply filter_is_safe.
Qed.

Section Keys.
Context `{!Bcrypt}.

Lemma handle_files_new r st name :
  is_Some (files (handle r st).2 !! name) →
  is_Some (files st !! name)
  ∨ ∃ c raw content,
      r = Upload c (Some (raw, content))
      ∧ name = secure_filename raw ∧ secure_filename raw ≠ "".
Proof.
  intros [data Hdata].
  assert (Hother : ¬ is_upload r → is_Some (files st !! name)).
  { intros Hup. apply handle_files_lookup in Hdata
      as [Hsame|[(c & f & -> & _)|[(c & n & t & old & _ & Hold & _)
                                  |(c & n & t & old & _ & Hold & _)]]];
      eauto.
    by destruct Hup. }
  destruct r as [| | |c [[raw content]|]| | | |];
    try (left; apply Hother; intros []; fail); cbn [handle] in Hdata.
  2: { left. simpl in Hdata. eauto. }
  destruct (decide (raw = "")) as [->|Hraw]; [left; eauto|].
  destruct (upload_file_cases c raw content st Hraw)
    as [[Hname Heq]|[_ Heq]]; rewrite Heq in Hdata; simpl in Hdata;
    [|left; eauto].
  destruct (decide (secure_filename raw = name)) as [<-|Hne].
  - right. eauto 10.
  - rewrite lookup_insert_ne in Hdata by done. left. eauto.
Qed.

Lemma reachable_names_safe st : reachable st → names_safe st.
Proof.
  induction 1 as [us up|r st _ IH]; intros name data Hdata.
  - simpl in Hdata. by rewrite lookup_empty in Hdata.
  - destruct (handle_files_new r st name) as [[old Hold]|(c & raw & content & _ & -> & Hne)];
      [eauto|by eapply IH|].
    split; [done|apply secure_filename_safe].
Qed.

End Keys.

(** X18: in every reachable state the name of every record is a sanitized
    name: it is not empty and consists of letters, digits, dots, dashes and
    underscores only, so it contains no path separator.  (The sanitizer and
    the storage step are the modelled library routines.) *)
Theorem record_names_sanitized `{!Bcrypt}
    (st : state) (name : string) (data : file_data) :
  reachable st →
  files st !! name = Some data →
  name ≠ ""
  ∧ Forall (λ c, is_safe c = true) (list_ascii_of_string name)
  ∧ "/"%char ∉ list_ascii_of_string name.
Proof.
  intros Hst Hdata.
  destruct (reachable_names_safe st Hst name data Hdata) as [Hne Hsafe].
  split_and!; [done|done|].
  intros Hin. rewrite Forall_forall in Hsafe. by apply Hsafe in Hin.
Qed.

Lemma record_names_sanitized_witness :
  reachable (H := clear_text)
    (run (H := clear_text) [Upload "alice" (Some ("../../etc/my passwd", "x"))]
       Scenario.registered)
  ∧ files (run (H := clear_text)
             [Upload "alice" (Some ("../../etc/my passwd", "x"))]
             Scenario.registered) !! "etc_my_passwd" = Some (FileData "alice" [])
  ∧ "/"%char ∉ list_ascii_of_string "etc_my_passwd".
Proof.
  assert (Hst : reachable (H := clear_text)
                  (run (H := clear_text)
                     [Upload "alice" (Some ("../../etc/my passwd", "x"))]
                     Scenario.registered))
    by apply reachable_run, reachable_run, reachable_empty.
  assert (Hfile : files (run (H := clear_text)
                           [Upload "alice" (Some ("../../etc/my passwd", "x"))]
                           Scenario.registered) !! "etc_my_passwd"
                  = Some (FileData "alice" [])) by reflexivity.
  split_and!; [exact Hst|exact Hfile|].
  eapply (record_names_sanitized (H := clear_text)); [exact Hst|exact Hfile].
Defined.

(** X19: in every reachable state no share list names a user twice. *)
Theorem share_lists_without_duplicates `{!Bcrypt}
    (st : state) (name : string) (data : file_data) :
  reachable st → files st !! name = Some data → NoDup (shared_with data).
Proof. intros Hst. by apply reachable_shares_nodup. Qed.

Lemma share_lists_without_duplicates_witness :
  reachable (H := clear_text)
    (run (H := clear_text) [Share "alice" (Some "a.txt") (Some "bob")]
       Scenario.shared_with_bob)
  ∧ files (run (H := clear_text) [Share "alice" (Some "a.txt") (Some "bob")]
             Scenario.shared_with_bob) !! "a.txt"
    = Some (FileData "alice" ["bob"])
  ∧ NoDup (shared_with (FileData "alice" ["bob"])).
Proof.
  assert (Hst : reachable (H := clear_text)
                  (run (H := clear_text)
                     [Share "alice" (Some "a.txt") (Some "bob")]
                     Scenario.shared_with_bob))
    by apply reachable_run, reachable_run, reachable_empty.
  assert (Hfile : files (run (H := clear_text)
                           [Share "alice" (Some "a.txt") (Some "bob")]
                           Scenario.shared_with_bob) !! "a.txt"
                  = Some (FileData "alice" ["bob"])) by reflexivity.
  split_and!; [exact Hst|exact Hfile|].
  exact (share_lists_without_duplicates (H := clear_text) _ "a.txt" _ Hst Hfile).
Defined.

(** ** The answer of [get_files] *)

Lemma owned_files_NoDup (username : string) (st : state) :
  NoDup (owned_files username st).
Proof.
  unfold owned_files.
  apply (sublist_NoDup _ ((map_to_list (files st)).*1)).
  - apply NoDup_fst_map_to_list.
  - apply fmap_sublist. apply (sublist_filter _).
Qed.

Lemma shared_files_NoDup (username : string) (st : state) :
  NoDup (shared_files username st).
Proof.
  unfold shared_files.
  apply (sublist_NoDup _ ((map_to_list (files st)).*1)).
  - apply NoDup_fst_map_to_list.
  - apply fmap_sublist. apply (sublist_filter _).
Qed.

(** X20: [get_files] always answers 200 and changes nothing; its first
    list holds exactly the names of the records the caller owns, its second
    list exactly the names of the records whose [shared_with] contains the
    caller, and neither list repeats a name. *)
Theorem get_files_exact (caller : string) (st : state) :
  ∃ owned shared,
    get_files caller st = ((FileLists owned shared, 200), st)
    ∧ NoDup owned ∧ NoDup shared
    ∧ (∀ f, f ∈ owned ↔ ∃ data, files st !! f = Some data ∧ owner data = caller)
    ∧ (∀ f, f ∈ shared ↔
            ∃ data, files st !! f = Some data ∧ caller ∈ shared_with data).
Proof.
  exists (owned_files caller st), (shared_files caller st).
  split_and!; [done|apply owned_files_NoDup|apply shared_files_NoDup| |].
  - intros f. apply elem_of_owned_files.
  - intros f. apply elem_of_shared_files.
Qed.

(** ** What a request leaves alone *)

(** X21: only [register] writes [users] and [users.json]; only uploads
    and deletes write the upload folder; [login], [get_files] and
    [download_file] change nothing at all. *)
Theorem requests_leave_alone `{!Bcrypt} (r : request) (st : state) :
  (match r with
   | Register _ _ _ => True
   | _ => users (handle r st).2 = users st
          ∧ users_json (handle r st).2 = users_json st
   end)
  ∧ (match r with
     | Upload _ _ | Delete _ _ => True
     | _ => uploads (handle r st).2 = uploads st
     end)
  ∧ (match r with
     | Login _ _ | List_ _ | Download _ _ => (handle r st).2 = st
     | _ => True
     end)
  ∧ (match r with
     | Register _ _ _ => files (handle r st).2 = files st
     | _ => True
     end).
Proof.
  destruct r as [un p s|un p|c|c f|c n|c n t|c n t|c n]; simpl.
  - unfold register. split_and!; by repeat (case_decide || case_match).
  - by rewrite login_unchanged.
  - done.
  - unfold upload_file. split_and!; by repeat (case_decide || case_match).
  - by rewrite download_file_unchanged.
  - unfold share_file. split_and!; by repeat (case_decide || case_match).
  - unfold revoke_access. split_and!; by repeat (case_decide || case_match).
  - unfold delete_file. split_and!; by repeat (case_decide || case_match).
Qed.

(** X22: a successful upload takes the file from everybody else: right
    after it, the download of that name by any user other than the uploader,
    the former owner and the users it was shared with included, is refused
    with AccessDenied. *)
Theorem upload_then_others_denied
    (caller other raw content : string) (st : state) :
  secure_filename raw ≠ "" → other ≠ caller →
  download_file other (secure_filename raw)
    (upload_file caller (Some (raw, content)) st).2
  = ((Error "Access denied", 403),
     (upload_file caller (Some (raw, content)) st).2).
Proof.
  intros Hname Hother. rewrite upload_file_ok by done.
  apply (download_file_denied _ _ _ (FileData caller [])); simpl.
  - apply lookup_insert_eq.
  - congruence.
  - apply not_elem_of_nil.
Qed.

Lemma upload_then_others_denied_witness :
  secure_filename "a.txt" ≠ "" ∧ "alice" ≠ "carol"
  ∧ (download_file "alice" "a.txt" Scenario.shared_with_bob).1
    = (Attachment "a.txt" "data", 200)
  ∧ (download_file "alice" "a.txt"
       (upload_file "carol" (Some ("a.txt", "new")) Scenario.shared_with_bob).2).1
    = (Error "Access denied", 403).
Proof.
  assert (Hname : secure_filename "a.txt" ≠ "") by done.
  split_and!; [exact Hname|done|reflexivity|].
  change "a.txt" with (secure_filename "a.txt") at 1.
  by rewrite (upload_then_others_denied "carol" "alice" "a.txt" "new"
                Scenario.shared_with_bob Hname).
Defined.
